(** * KickLang Tutor: client adapters and session state holder

    A shallow embedding of [src/types.ts], [src/services/geminiService.ts]
    and the event handlers of [src/App.tsx], together with the author-tag
    heuristic of the later revision of [App.tsx] kept under
    [src/unnamed/part_003].

    Conventions of the embedding:
    - a JavaScript string is a [string] (its UTF-8 bytes); every marker the
      code searches for is plain ASCII;
    - a value of type [string | undefined] is an [option string];
    - a call that may throw, and an awaited promise, is a [Completion]:
      [Returned v] for a normal completion or a fulfilled promise,
      [Thrown e] for a thrown exception or a rejected promise;
    - the hosted model ([ai.models.generateContent], [ai.chats.create]
      followed by [chat.sendMessage]) and [JSON.parse] are not code of the
      repository: they are fields of a [Runtime] the adapters receive, and
      every theorem holds for every runtime;
    - [Date.now()] is a function [now : nat -> Z] giving the k-th reading of
      the clock within one handler invocation;
    - [console.log], [console.error] and [alert] only write diagnostics and
      are left out of the state. *)

From Stdlib Require Import String Ascii List ZArith QArith Bool Lia DecimalString.
Import ListNotations.
Open Scope string_scope.

(** ** JavaScript primitives used by the sources *)

Module JS.

(** An exception value: the constructor name and the message. *)
Record Error : Type := mkError { error_name : string; error_message : string }.

Inductive Completion (A : Type) : Type :=
| Returned (a : A)
| Thrown (e : Error).

Arguments Returned {A} a.
Arguments Thrown {A} e.

Definition bind {A B : Type} (c : Completion A) (k : A -> Completion B) : Completion B :=
  match c with
  | Returned a => k a
  | Thrown e => Thrown e
  end.

(** [try { body } catch (e) { handler e }] *)
Definition try_catch {A : Type} (body : Completion A) (handler : Error -> Completion A)
  : Completion A :=
  match body with
  | Returned a => Returned a
  | Thrown e => handler e
  end.

(** [String.prototype.includes]: does [needle] occur in [s]? *)
Fixpoint includes (s needle : string) : bool :=
  if String.prefix needle s then true
  else match s with
       | EmptyString => false
       | String _ rest => includes rest needle
       end.

(** Truthiness of a [string | undefined]: only a non-empty string is truthy. *)
Definition truthy (v : option string) : bool :=
  match v with
  | Some s => negb (s =? "")
  | None => false
  end.

(** [v || d] for [v : string | undefined] and a string [d]. *)
Definition or_default (v : option string) (d : string) : string :=
  match v with
  | Some s => if negb (s =? "") then s else d
  | None => d
  end.

(** [Number.prototype.toString] on an integer. *)
Definition toString (n : Z) : string := NilEmpty.string_of_int (Z.to_int n).

Definition newline : string := String "010"%char EmptyString.
Definition dquote : string := String "034"%char EmptyString.

End JS.

Import JS.

Declare Scope completion_scope.
Delimit Scope completion_scope with completion.
Notation "x <- c ;; k" := (JS.bind c (fun x => k))
  (at level 61, c at next level, right associativity) : completion_scope.

(** ** [src/types.ts] *)

Inductive LearningStyle : Type := Socratic | Direct | Hybrid.

(** The string value of an enum member, as a template literal prints it. *)
Definition LearningStyle_value (s : LearningStyle) : string :=
  match s with
  | Socratic => "Socratic"
  | Direct => "Direct"
  | Hybrid => "Hybrid"
  end.

Definition LearningStyle_eqb (a b : LearningStyle) : bool :=
  match a, b with
  | Socratic, Socratic | Direct, Direct | Hybrid, Hybrid => true
  | _, _ => false
  end.

Inductive NodeStatus : Type := pending | active | completed.

Record GraphNode : Type := mkGraphNode {
  node_id : string;
  node_label : string;
  node_status : NodeStatus;
  node_group : option Z   (* optional; no modelled code reads or writes it *)
}.

Record GraphLink : Type := mkGraphLink {
  link_source : string;
  link_target : string
}.

Record LearningGraphData : Type := mkLearningGraphData {
  nodes : list GraphNode;
  links : list GraphLink
}.

Inductive Role : Type := user | model | system.

Record Message : Type := mkMessage {
  msg_id : string;
  msg_role : Role;
  authorName : option string;
  msg_text : string;
  timestamp : Z
}.

Record KickLangState : Type := mkKickLangState {
  objective : string;
  learningStyle : LearningStyle;
  currentNodeId : string;
  difficulty : string
}.

Definition INITIAL_GRAPH : LearningGraphData := {| nodes := []; links := [] |}.

(** ** [src/services/geminiService.ts] *)

(** The response schema handed to the model with the graph request. *)
#[warnings="-register-all"]
Inductive Schema : Type :=
| SchemaObject (properties : list (string * Schema)) (required : list string)
| SchemaArray (items : Schema)
| SchemaString (enum : list string).

Record GenerateContentConfig : Type := mkGenerateContentConfig {
  responseMimeType : string;
  responseSchema : Schema
}.

Record GenerateContentParameters : Type := mkGenerateContentParameters {
  gc_model : string;
  gc_contents : string;
  gc_config : GenerateContentConfig
}.

(** What the adapters read of the model's response: its [text] accessor,
    which is [undefined] when the response carries no text. *)
Record GenerateContentResponse : Type := mkGenerateContentResponse {
  text : option string
}.

Record Part : Type := mkPart { part_text : string }.

Record Content : Type := mkContent {
  role : string;
  parts : list Part
}.

Record ChatConfig : Type := mkChatConfig {
  chat_systemInstruction : string;
  temperature : Q
}.

Record ChatParameters : Type := mkChatParameters {
  chat_model : string;
  chat_config : ChatConfig;
  chat_history : list Content
}.

(** The client object [ai]: one graph request, and one chat round trip
    ([ai.chats.create(params)] followed by [chat.sendMessage({ message })]). *)
Record GoogleGenAI : Type := mkGoogleGenAI {
  models_generateContent : GenerateContentParameters -> Completion GenerateContentResponse;
  chats_sendMessage : ChatParameters -> string -> Completion GenerateContentResponse
}.

(** The environment of the adapters. [JSON_parse] is [JSON.parse] followed by
    the unchecked cast [as LearningGraphData]: [Thrown] is its [SyntaxError];
    a parsed value is taken at the declared type. *)
Record Runtime : Type := mkRuntime {
  ai : GoogleGenAI;
  JSON_parse : string -> Completion LearningGraphData
}.

Record ChatContext : Type := mkChatContext {
  ctx_objective : string;
  ctx_style : LearningStyle;
  ctx_currentNode : string;
  ctx_graph : LearningGraphData
}.

Definition MODEL_TEXT : string := "gemini-3-flash-preview".

Definition systemPrompt (objective : string) : string :=
  String.concat newline
    [ EmptyString
    ; "    You are the KickLang Swarm Orchestrator operating in ⫻mode:Fluid."
    ; "    Target Objective: " ++ dquote ++ objective ++ dquote
    ; EmptyString
    ; "    ## EXECUTION FLOW: TAS PROCESSING"
    ; "    1. **⫻cmd/exec:GPTASe**: Extract raw Task-Agnostic Steps (TAS) required to master this objective."
    ; "    2. **⫻cmd/exec:puTASe**: Purify these steps (refine, filter, structure) into ⫻data/ptas."
    ; "    3. **⫻cmd/exec:Lyra**: Architect a directed knowledge graph from the purified TAS."
    ; EmptyString
    ; "    ## LYRA CONFIGURATION"
    ; "    - **Nodes**: Represents the purified steps (ptas). 6-10 nodes max."
    ; "    - **Links**: Dependency flow (prerequisites first)."
    ; "    - **Start**: Must have a node with id 'start'."
    ; "    - **Output**: Pure JSON matching the schema."
    ; EmptyString
    ; "    Output ONLY the JSON for Lyra's final graph structure."
    ; "  "
    ].

Definition graphSchema : Schema :=
  SchemaObject
    [ ("nodes",
       SchemaArray
         (SchemaObject
            [ ("id", SchemaString [])
            ; ("label", SchemaString [])
            ; ("status", SchemaString ["pending"; "active"; "completed"]) ]
            ["id"; "label"; "status"]))
    ; ("links",
       SchemaArray
         (SchemaObject
            [ ("source", SchemaString [])
            ; ("target", SchemaString []) ]
            ["source"; "target"])) ]
    ["nodes"; "links"].

Definition graphRequest (objective : string) : GenerateContentParameters :=
  {| gc_model := MODEL_TEXT;
     gc_contents := systemPrompt objective;
     gc_config := {| responseMimeType := "application/json";
                     responseSchema := graphSchema |} |}.

(** The graph returned from the [catch] block. *)
Definition fallbackGraph : LearningGraphData :=
  {| nodes := [ {| node_id := "start"; node_label := "Start";
                   node_status := active; node_group := None |} ];
     links := [] |}.

Definition generateLearningGraph (rt : Runtime) (objective : string)
  : Completion LearningGraphData :=
  try_catch
    (response <- models_generateContent (ai rt) (graphRequest objective) ;;
     match text response with
     | Some t =>
         if truthy (Some t) then JSON_parse rt t
         else Thrown (mkError "Error" "No data returned")
     | None => Thrown (mkError "Error" "No data returned")
     end)%completion
    (fun error => Returned fallbackGraph).

Definition systemInstruction (context : ChatContext) : string :=
  String.concat newline
    [ EmptyString
    ; "    ⫻version: 2.1"
    ; "    ⫻mode: Fluid"
    ; "    ⫻context: " ++ dquote ++ "KickLang Adaptive Tutoring" ++ dquote
    ; "    "
    ; "    ## CONFIGURATION"
    ; "    ⫻data:"
    ; "      ⫻obj: " ++ dquote ++ ctx_objective context ++ dquote
    ; "      ⫻var:learning_style = " ++ dquote ++ LearningStyle_value (ctx_style context) ++ dquote
    ; "      ⫻var:current_node = " ++ dquote ++ ctx_currentNode context ++ dquote
    ; "      "
    ; "    ## AGENT ROSTER (SWARM)"
    ; "    - **AI_Tutor**: Primary instructor."
    ; "    - **DebuggAI**: Error analysis."
    ; "    - **ScopeGuard**: Prevents tangents."
    ; "    - **Lyra**: Knowledge graph architect."
    ; "    - **Dima**: Ethical oversight."
    ; "    - **Codein**: Implementation helper."
    ; "    - **AR-00L**: Visual aids."
    ; "    - **Kick_La_Metta**: Logic translator."
    ; "    - **WePlan**: Curriculum mapper."
    ; EmptyString
    ; "    ## CORE FLOW (adaptive_tutoring_template.kl)"
    ; "    1. **Clarify Focus**:"
    ; "       " ++ dquote ++ "Current focus: [" ++ ctx_currentNode context ++ "]."
    ; "        Choose next step:"
    ; "        A) Explain concept (uses AR-00L)"
    ; "        B) Try it yourself (uses Codein/DebuggAI)"
    ; "        C) Explore prerequisites (uses Lyra)" ++ dquote
    ; "    "
    ; "    2. **Adapt Mode**:"
    ; "       If style is Socratic -> Ask guiding questions."
    ; "       If style is Direct -> Explain clearly."
    ; EmptyString
    ; "    3. **Handle Input**:"
    ; "       - If user chooses A: **AI_Tutor** explains, **AR-00L** describes visuals."
    ; "       - If user chooses B: **Codein** sets challenge, **DebuggAI** fixes errors."
    ; "       - If user chooses C: **Lyra** navigates graph."
    ; EmptyString
    ; "    4. **Guardrails**:"
    ; "       - **ScopeGuard**: If user drifts, ask to save new goal."
    ; "       - **Dima**: Check for frustration or ethical risks."
    ; EmptyString
    ; "    ## FORMATTING"
    ; "    - Use Markdown."
    ; "    - Prefix agent changes with bold names (e.g., " ++ dquote ++ "**ScopeGuard:** ..." ++ dquote ++ ")."
    ; "    - Keep responses concise and flow-oriented."
    ; "  "
    ].

(** [history.map(h => ({ role: h.role === 'model' ? 'model' : 'user', parts: h.parts }))] *)
Definition formattedHistory (history : list Content) : list Content :=
  map (fun h => {| role := if role h =? "model" then "model" else "user";
                   parts := parts h |})
      history.

Definition chatParameters (history : list Content) (context : ChatContext) : ChatParameters :=
  {| chat_model := MODEL_TEXT;
     chat_config := {| chat_systemInstruction := systemInstruction context;
                       temperature := 7 # 10 |};
     chat_history := formattedHistory history |}.

(** The string returned from the [catch] block of [sendKickLangMessage]. *)
Definition chatErrorText : string :=
  "**SystemMonitor:** Neural core interrupt. Re-synchronizing swarm...".

Definition sendKickLangMessage (rt : Runtime) (history : list Content) (message : string)
    (context : ChatContext) : Completion (option string) :=
  try_catch
    (result <- chats_sendMessage (ai rt) (chatParameters history context) message ;;
     Returned (text result))%completion
    (fun e => Returned (Some chatErrorText)).

(** ** [src/App.tsx]: the state of the component *)

(** The [useState] cells of [App] and the [chatHistoryRef] reference. *)
Record AppState : Type := mkAppState {
  hasStarted : bool;
  isLoading : bool;
  isTyping : bool;
  kickLangState : KickLangState;
  graphData : LearningGraphData;
  messages : list Message;
  chatHistoryRef : list Content
}.

Definition initialKickLangState : KickLangState :=
  {| objective := "";
     learningStyle := Socratic;
     currentNodeId := "start";
     difficulty := "intermediate" |}.

Definition initialAppState : AppState :=
  {| hasStarted := false;
     isLoading := false;
     isTyping := false;
     kickLangState := initialKickLangState;
     graphData := INITIAL_GRAPH;
     messages := [];
     chatHistoryRef := [] |}.

(** A handler is a computation over the component state that may throw;
    what it wrote before throwing stays written. *)
Definition Handler (A : Type) : Type := AppState -> Completion A * AppState.

Definition ret {A : Type} (a : A) : Handler A := fun st => (Returned a, st).

Definition hbind {A B : Type} (m : Handler A) (k : A -> Handler B) : Handler B :=
  fun st =>
    match m st with
    | (Returned a, st') => k a st'
    | (Thrown e, st') => (Thrown e, st')
    end.

(** [await c]: resume with the value of a fulfilled promise, throw the
    reason of a rejected one. *)
Definition await {A : Type} (c : Completion A) : Handler A := fun st => (c, st).

(** [try { body } catch (e) { handler e } finally { final }] *)
Definition try_catch_finally {A : Type} (body : Handler A) (handler : JS.Error -> Handler A)
    (final : Handler unit) : Handler A :=
  fun st =>
    let '(r, st1) :=
      match body st with
      | (Returned a, st') => (Returned a, st')
      | (Thrown e, st') => handler e st'
      end in
    match final st1 with
    | (Returned _, st2) => (r, st2)
    | (Thrown e, st2) => (Thrown e, st2)
    end.

(** The state a handler leaves behind. *)
Definition exec {A : Type} (m : Handler A) (st : AppState) : AppState := snd (m st).

Declare Scope handler_scope.
Delimit Scope handler_scope with handler.
Bind Scope handler_scope with Handler.
Notation "x <- m ;; k" := (hbind m (fun x => k))
  (at level 61, m at next level, right associativity) : handler_scope.
Notation "m ;; k" := (hbind m (fun _ => k))
  (at level 61, right associativity) : handler_scope.

(** The state setters. A setter called with an updater function receives
    the latest state; one called with a value overwrites it. *)
Definition setHasStarted (b : bool) : Handler unit := fun st =>
  (Returned tt,
   {| hasStarted := b; isLoading := isLoading st; isTyping := isTyping st;
      kickLangState := kickLangState st; graphData := graphData st;
      messages := messages st; chatHistoryRef := chatHistoryRef st |}).

Definition setIsLoading (b : bool) : Handler unit := fun st =>
  (Returned tt,
   {| hasStarted := hasStarted st; isLoading := b; isTyping := isTyping st;
      kickLangState := kickLangState st; graphData := graphData st;
      messages := messages st; chatHistoryRef := chatHistoryRef st |}).

Definition setIsTyping (b : bool) : Handler unit := fun st =>
  (Returned tt,
   {| hasStarted := hasStarted st; isLoading := isLoading st; isTyping := b;
      kickLangState := kickLangState st; graphData := graphData st;
      messages := messages st; chatHistoryRef := chatHistoryRef st |}).

Definition setKickLangState (f : KickLangState -> KickLangState) : Handler unit := fun st =>
  (Returned tt,
   {| hasStarted := hasStarted st; isLoading := isLoading st; isTyping := isTyping st;
      kickLangState := f (kickLangState st); graphData := graphData st;
      messages := messages st; chatHistoryRef := chatHistoryRef st |}).

Definition setGraphData (g : LearningGraphData) : Handler unit := fun st =>
  (Returned tt,
   {| hasStarted := hasStarted st; isLoading := isLoading st; isTyping := isTyping st;
      kickLangState := kickLangState st; graphData := g;
      messages := messages st; chatHistoryRef := chatHistoryRef st |}).

Definition setMessages (f : list Message -> list Message) : Handler unit := fun st =>
  (Returned tt,
   {| hasStarted := hasStarted st; isLoading := isLoading st; isTyping := isTyping st;
      kickLangState := kickLangState st; graphData := graphData st;
      messages := f (messages st); chatHistoryRef := chatHistoryRef st |}).

(** Writes to [chatHistoryRef.current]: assignment and [push]. *)
Definition chatHistoryRef_assign (h : list Content) : Handler unit := fun st =>
  (Returned tt,
   {| hasStarted := hasStarted st; isLoading := isLoading st; isTyping := isTyping st;
      kickLangState := kickLangState st; graphData := graphData st;
      messages := messages st; chatHistoryRef := h |}).

Definition chatHistoryRef_push (c : Content) : Handler unit := fun st =>
  (Returned tt,
   {| hasStarted := hasStarted st; isLoading := isLoading st; isTyping := isTyping st;
      kickLangState := kickLangState st; graphData := graphData st;
      messages := messages st; chatHistoryRef := chatHistoryRef st ++ [c] |}).

(** The state the handler closes over. *)
Definition readState : Handler AppState := fun st => (Returned st, st).

(** Reading a method of a [string | undefined] value: a [TypeError] on
    [undefined]. *)
Definition receiver (v : option string) : Handler string :=
  match v with
  | Some s => ret s
  | None => await (Thrown (mkError "TypeError" "Cannot read properties of undefined"))
  end.

(** ** [src/App.tsx]: the handlers *)

(** The text of the first tutor message. *)
Definition welcomeText (obj : string) (graph : LearningGraphData) : string :=
  "Welcome! I've loaded the knowledge graph for **" ++ obj
  ++ "**. We are starting at **"
  ++ or_default (option_map node_label (nth_error (nodes graph) 0)) "Start"
  ++ "**. " ++ newline ++ newline
  ++ "Should we dive right in with an example (Direct) or explore the concept together (Socratic)?".

(** [handleStartSession] after [await generateLearningGraph(obj)] has
    settled with [generated]: the rest of the [try] block, the [catch]
    block and the [finally] block. *)
Definition handleStartSession_resume (now : nat -> Z) (obj : string)
    (generated : Completion LearningGraphData) : Handler unit :=
  try_catch_finally
    (graph <- await generated ;;
     setGraphData graph ;;
     let startNode :=
       match nodes graph with
       | first :: _ => node_id first     (* graph.nodes.length > 0 *)
       | [] => "start"
       end in
     setKickLangState (fun prev =>
       {| objective := obj;
          learningStyle := learningStyle prev;
          currentNodeId := startNode;
          difficulty := difficulty prev |}) ;;
     let initialMessage :=
       {| msg_id := "init-1";
          msg_role := model;
          authorName := Some "AI_Tutor";
          msg_text := welcomeText obj graph;
          timestamp := now 0%nat |} in
     setMessages (fun _ => [initialMessage]) ;;
     chatHistoryRef_assign
       [ {| role := "model"; parts := [ {| part_text := msg_text initialMessage |} ] |} ] ;;
     setHasStarted true)%handler
    (fun e => ret tt)
    (setIsLoading false).

Definition handleStartSession (rt : Runtime) (now : nat -> Z) (obj : string) : Handler unit :=
  (setIsLoading true ;;
   handleStartSession_resume now obj (generateLearningGraph rt obj))%handler.

(** The author-tag heuristic applied to a model response. *)
Definition authorOf (responseText : string) : string :=
  if includes responseText "**ScopeGuard" then "ScopeGuard"
  else if includes responseText "**DebuggAI" then "DebuggAI"
  else if includes responseText "**Dima" then "Dima"
  else "AI_Tutor".

(** The same heuristic in the revision of [App.tsx] kept as
    [src/unnamed/part_003]. *)
Definition authorOf_swarm (responseText : string) : string :=
  if includes responseText "**Orchestrator" then "Orchestrator"
  else if includes responseText "**ScopeGuard" then "ScopeGuard"
  else if includes responseText "**DebuggAI" then "DebuggAI"
  else if includes responseText "**Dima" then "Dima"
  else if includes responseText "**WePlan" then "WePlan"
  else if includes responseText "**Codein" then "Codein"
  else if includes responseText "**AR-00L" then "AR-00L"
  else if includes responseText "**Kick_La_Metta" then "Kick_La_Metta"
  else "AI_Tutor".

(** The context object [handleSendMessage] passes to the adapter, read from
    the state the handler closes over. *)
Definition chatContextOf (closure : AppState) : ChatContext :=
  {| ctx_objective := objective (kickLangState closure);
     ctx_style := learningStyle (kickLangState closure);
     ctx_currentNode :=
       or_default
         (option_map node_label
            (find (fun n => node_id n =? currentNodeId (kickLangState closure))
                  (nodes (graphData closure))))
         "Unknown";
     ctx_graph := graphData closure |}.

(** The history entries [handleSendMessage] pushes. *)
Definition userTurn (text : string) : Content :=
  {| role := "user"; parts := [ {| part_text := text |} ] |}.

Definition modelTurn (responseText : string) : Content :=
  {| role := "model"; parts := [ {| part_text := responseText |} ] |}.

(** The messages [handleSendMessage] builds. *)
Definition userMsg (now : nat -> Z) (text : string) : Message :=
  {| msg_id := toString (now 0%nat);
     msg_role := user;
     authorName := None;
     msg_text := text;
     timestamp := now 1%nat |}.

Definition botMsg (now : nat -> Z) (author responseText : string) : Message :=
  {| msg_id := toString (now 2%nat + 1);
     msg_role := model;
     authorName := Some author;
     msg_text := responseText;
     timestamp := now 3%nat |}.

(** [handleSendMessage] up to its [await]: the optimistic user message, the
    typing flag, the history entry, and the arguments of the adapter call
    (the history as it is at the call, and the context read from the state
    the handler closes over). *)
Definition handleSendMessage_submit (now : nat -> Z) (text : string)
  : Handler (list Content * ChatContext) :=
  (closure <- readState ;;
   let userMsg := userMsg now text in
   setMessages (fun prev => (prev ++ [userMsg])%list) ;;
   setIsTyping true ;;
   chatHistoryRef_push (userTurn text) ;;
   current <- readState ;;
   ret (chatHistoryRef current, chatContextOf closure))%handler.

(** [handleSendMessage] after [await sendKickLangMessage(...)] has settled
    with [reply]. *)
Definition handleSendMessage_resume (now : nat -> Z) (reply : Completion (option string))
  : Handler unit :=
  try_catch_finally
    (responseText <- await reply ;;
     responseText <- receiver responseText ;;
     let author := authorOf responseText in
     let botMsg := botMsg now author responseText in
     setMessages (fun prev => (prev ++ [botMsg])%list) ;;
     chatHistoryRef_push (modelTurn responseText))%handler
    (fun error => ret tt)
    (setIsTyping false).

Definition handleSendMessage (rt : Runtime) (now : nat -> Z) (text : string) : Handler unit :=
  (args <- handleSendMessage_submit now text ;;
   handleSendMessage_resume now (sendKickLangMessage rt (fst args) text (snd args)))%handler.

Definition handleNodeClick (nodeId : string) : Handler unit :=
  setKickLangState (fun prev =>
    {| objective := objective prev;
       learningStyle := learningStyle prev;
       currentNodeId := nodeId;
       difficulty := difficulty prev |}).

Definition toggleStyle : Handler unit :=
  setKickLangState (fun prev =>
    {| objective := objective prev;
       learningStyle :=
         if LearningStyle_eqb (learningStyle prev) Socratic then Direct else Socratic;
       currentNodeId := currentNodeId prev;
       difficulty := difficulty prev |}).

(** ** Runs of the component

    One step is what runs without interruption: a click handler, or the
    part of an asynchronous handler before or after its [await]. A step
    that follows an [await] carries the settled promise. *)
Inductive Step : Type :=
| StartSession_begin
| StartSession_settled (now : nat -> Z) (obj : string)
    (generated : Completion LearningGraphData)
| SendMessage_submitted (now : nat -> Z) (text : string)
| SendMessage_settled (now : nat -> Z) (reply : Completion (option string))
| NodeClick (nodeId : string)
| ToggleStyle.

Definition step (s : Step) (st : AppState) : AppState :=
  match s with
  | StartSession_begin => exec (setIsLoading true) st
  | StartSession_settled now obj generated =>
      exec (handleStartSession_resume now obj generated) st
  | SendMessage_submitted now text => exec (handleSendMessage_submit now text) st
  | SendMessage_settled now reply => exec (handleSendMessage_resume now reply) st
  | NodeClick nodeId => exec (handleNodeClick nodeId) st
  | ToggleStyle => exec toggleStyle st
  end.

Definition run (steps : list Step) (st : AppState) : AppState :=
  fold_left (fun acc s => step s acc) steps st.

(** [n] presses of the style button. *)
Fixpoint toggleStyle_times (n : nat) (st : AppState) : AppState :=
  match n with
  | O => st
  | S k => exec toggleStyle (toggleStyle_times k st)
  end.

(** ** Vocabulary of the properties *)

(** The shape the prompt asks the model for: a node with id [start] and
    between 6 and 10 nodes. *)
Definition requestedShape (g : LearningGraphData) : bool :=
  existsb (fun n => node_id n =? "start") (nodes g)
  && (6 <=? length (nodes g))%nat && (length (nodes g) <=? 10)%nat.

(** The persona names the heuristic of [src/App.tsx] looks for, in the
    order it tests them, and those of the later revision. *)
Definition personaMarkers : list string := ["ScopeGuard"; "DebuggAI"; "Dima"].

Definition personaMarkers_swarm : list string :=
  ["Orchestrator"; "ScopeGuard"; "DebuggAI"; "Dima"; "WePlan"; "Codein"; "AR-00L";
   "Kick_La_Metta"].

(** The classifier as the specification words it: the first persona of an
    ordered list whose bold-prefixed name occurs in the text, and
    [AI_Tutor] when none does. *)
Definition firstMarker (markers : list string) (responseText : string) : string :=
  match find (fun name => includes responseText ("**" ++ name)) markers with
  | Some name => name
  | None => "AI_Tutor"
  end.

(** The graph request fails: the model call throws, or its response has no
    text or an empty one. *)
Definition graphInvocationFails (rt : Runtime) (objective : string) : bool :=
  match models_generateContent (ai rt) (graphRequest objective) with
  | Thrown _ => true
  | Returned response => negb (truthy (text response))
  end.

(** The chat round trip throws. *)
Definition chatInvocationFails (rt : Runtime) (history : list Content) (message : string)
    (context : ChatContext) : bool :=
  match chats_sendMessage (ai rt) (chatParameters history context) message with
  | Thrown _ => true
  | Returned _ => false
  end.

(** Has the message log [after] only grown from [before], by [k] messages? *)
Definition appended (k : nat) (before after : list Message) : Prop :=
  exists added, after = (before ++ added)%list /\ length added = k.

(** ** Concrete runtimes

    The end-to-end scenario of the specification: the model answers the
    graph request with a two-node graph. *)
Definition scenarioGraph : LearningGraphData :=
  {| nodes := [ {| node_id := "start"; node_label := "Start";
                   node_status := active; node_group := None |}
              ; {| node_id := "n2"; node_label := "Base Case";
                   node_status := pending; node_group := None |} ];
     links := [ {| link_source := "start"; link_target := "n2" |} ] |}.

(** The JSON text of [scenarioGraph]. *)
Definition scenarioText : string :=
  String.concat EmptyString
    [ "{"; dquote; "nodes"; dquote; ":[{"; dquote; "id"; dquote; ":"; dquote; "start"
    ; dquote; ","; dquote; "label"; dquote; ":"; dquote; "Start"; dquote; ","
    ; dquote; "status"; dquote; ":"; dquote; "active"; dquote; "},{"; dquote; "id"
    ; dquote; ":"; dquote; "n2"; dquote; ","; dquote; "label"; dquote; ":"; dquote
    ; "Base Case"; dquote; ","; dquote; "status"; dquote; ":"; dquote; "pending"
    ; dquote; "}],"; dquote; "links"; dquote; ":[{"; dquote; "source"; dquote
    ; ":"; dquote; "start"; dquote; ","; dquote; "target"; dquote; ":"; dquote
    ; "n2"; dquote; "}]}" ].

(** [JSON.parse] on the one text the scenario's model produces. *)
Definition scenarioParse (s : string) : Completion LearningGraphData :=
  if s =? scenarioText then Returned scenarioGraph
  else Thrown (mkError "SyntaxError" "Unexpected token").

Definition scenarioRuntime : Runtime :=
  {| ai := {| models_generateContent := fun _ =>
                Returned {| text := Some scenarioText |};
              chats_sendMessage := fun _ _ =>
                Returned {| text := Some "**ScopeGuard:** focus" |} |};
     JSON_parse := scenarioParse |}.

(** A client without network: every model call rejects. *)
Definition offlineRuntime : Runtime :=
  {| ai := {| models_generateContent := fun _ =>
                Thrown (mkError "TypeError" "Failed to fetch");
              chats_sendMessage := fun _ _ =>
                Thrown (mkError "TypeError" "Failed to fetch") |};
     JSON_parse := scenarioParse |}.

(** A model whose responses carry no text. *)
Definition silentRuntime : Runtime :=
  {| ai := {| models_generateContent := fun _ => Returned {| text := None |};
              chats_sendMessage := fun _ _ => Returned {| text := None |} |};
     JSON_parse := scenarioParse |}.

(** A model that answers every chat turn with the given text. *)
Definition echoRuntime (reply : string) : Runtime :=
  {| ai := {| models_generateContent := fun _ => Returned {| text := Some scenarioText |};
              chats_sendMessage := fun _ _ => Returned {| text := Some reply |} |};
     JSON_parse := scenarioParse |}.

(** The initial state with the learning style set to Hybrid. *)
Definition hybridAppState : AppState :=
  exec (setKickLangState (fun prev =>
          {| objective := objective prev;
             learningStyle := Hybrid;
             currentNodeId := currentNodeId prev;
             difficulty := difficulty prev |}))
       initialAppState.

(** A clock that always reads the same instant. *)
Definition frozenClock : nat -> Z := fun _ => 1700000000000%Z.

(** ** More JavaScript primitives: [String.prototype.trim] *)

From Stdlib Require DecimalZ.

Definition utf8 (bytes : list nat) : string :=
  string_of_list_ascii (map ascii_of_nat bytes).

(** The WhiteSpace and LineTerminator code points of ECMAScript, each as
    its UTF-8 bytes: U+0009 to U+000D, U+0020, U+00A0, U+1680, U+2000 to
    U+200A, U+2028, U+2029, U+202F, U+205F, U+3000 and U+FEFF. *)
Definition whiteSpace : list string :=
  [ utf8 [9]%nat; utf8 [10]%nat; utf8 [11]%nat; utf8 [12]%nat; utf8 [13]%nat; utf8 [32]%nat
  ; utf8 [194; 160]%nat
  ; utf8 [225; 154; 128]%nat
  ; utf8 [226; 128; 128]%nat; utf8 [226; 128; 129]%nat; utf8 [226; 128; 130]%nat
  ; utf8 [226; 128; 131]%nat; utf8 [226; 128; 132]%nat; utf8 [226; 128; 133]%nat
  ; utf8 [226; 128; 134]%nat; utf8 [226; 128; 135]%nat; utf8 [226; 128; 136]%nat
  ; utf8 [226; 128; 137]%nat; utf8 [226; 128; 138]%nat
  ; utf8 [226; 128; 168]%nat; utf8 [226; 128; 169]%nat; utf8 [226; 128; 175]%nat
  ; utf8 [226; 129; 159]%nat
  ; utf8 [227; 128; 128]%nat
  ; utf8 [239; 187; 191]%nat ].

(** [s] without its first [n] characters. *)
Fixpoint drop (n : nat) (s : string) : string :=
  match n, s with
  | S k, String _ rest => drop k rest
  | _, _ => s
  end.

(** [s] without one leading character of [chars], when it starts with one. *)
Definition dropLeading (chars : list string) (s : string) : option string :=
  match find (fun w => String.prefix w s) chars with
  | Some w => Some (drop (String.length w) s)
  | None => None
  end.

Fixpoint dropAllLeading (chars : list string) (fuel : nat) (s : string) : string :=
  match fuel with
  | O => s
  | S k =>
      match dropLeading chars s with
      | Some rest => dropAllLeading chars k rest
      | None => s
      end
  end.

Fixpoint reverse (s : string) : string :=
  match s with
  | EmptyString => EmptyString
  | String c rest => reverse rest ++ String c EmptyString
  end.

Definition trimStart (s : string) : string :=
  dropAllLeading whiteSpace (String.length s) s.

Definition trimEnd (s : string) : string :=
  reverse (dropAllLeading (map reverse whiteSpace) (String.length s) (reverse s)).

Definition trim (s : string) : string := trimEnd (trimStart s).

(** ** [src/components/SetupModal.tsx]: the setup form *)

Definition loadingMessages : list string :=
  [ "⫻cmd/exec:GPTASe → extracting raw TAS..."
  ; "⫻cmd/exec:puTASe → purifying logic (⫻data/ptas)..."
  ; "⫻cmd/exec:Lyra → structuring ⫻data/spec..."
  ; "⫻flow/ocs/swarm → initializing agent swarm..." ].

(** The updater the interval timer applies to [loadingStep] every second
    while [isLoading] holds. *)
Definition loadingStep_tick (prev : nat) : nat :=
  ((prev + 1) mod length loadingMessages)%nat.

(** What moves [loadingStep]: a run of the interval timer while
    [isLoading] holds, and the reset when it does not. *)
Inductive LoadingEvent : Type := TimerFires | LoadingEnds.

Definition loadingStep_after (e : LoadingEvent) (loadingStep : nat) : nat :=
  match e with
  | TimerFires => loadingStep_tick loadingStep
  | LoadingEnds => 0%nat
  end.

(** [handleSubmit] of the setup form, for the value [objective] of its
    text field: the argument it calls [onStart] with, or [None] when it
    returns without calling it. *)
Definition SetupModal_handleSubmit (objective : string) : option string :=
  if truthy (Some (trim objective)) then Some objective else None.

(** The [disabled] attribute of the submit button. *)
Definition SetupModal_submitDisabled (objective : string) (isLoading : bool) : bool :=
  negb (truthy (Some (trim objective))) || isLoading.

(** ** The chat form ([ChatInterface], both revisions) *)

(** [handleSubmit] of the chat form, for the value [input] of its text
    field: the argument it calls [onSendMessage] with, if it does, and the
    value of the field afterwards. *)
Definition ChatInterface_handleSubmit (isTyping : bool) (input : string)
  : option string * string :=
  if negb (truthy (Some (trim input))) || isTyping then (None, input)
  else (Some input, "").

(** A prop callback applied to what a form handler passes it. *)
Definition invoke (callback : string -> Handler unit) (argument : option string)
  : Handler unit :=
  match argument with
  | Some a => callback a
  | None => ret tt
  end.

(** ** The graph view ([src/unnamed/part_001]) *)


(** The nodes the effect draws once the [svg] element is mounted: none for
    an empty graph (it returns early), otherwise a copy of every node, in
    order. *)
Definition drawnNodes (data : LearningGraphData) : list GraphNode :=
  if (length (nodes data) =? 0)%nat then []
  else map (fun d => {| node_id := node_id d; node_label := node_label d;
                        node_status := node_status d; node_group := node_group d |})
           (nodes data).




(** The click listener of a node's circle. *)
Definition circleClick (onNodeClick : string -> Handler unit) (d : GraphNode) : Handler unit :=
  onNodeClick (node_id d).

(** ** The components at work

    The page is the state of [App] together with the promises still
    pending. An action is something the learner or the network does: a
    form is submitted, a pending promise settles (in any order), a circle
    of the graph view or the style button is clicked. [App] renders the
    setup form while [hasStarted] is false and the chat form, the graph
    view and the style button once it is true; an action on a component
    that is not rendered, and a submission its [handleSubmit] turns down,
    leave the page as it is. The [disabled] attributes of the fields are
    not relied on. *)

Record GraphRequest : Type := mkGraphRequest {
  graph_now : nat -> Z;
  graph_obj : string;
  graph_result : Completion LearningGraphData
}.

Record ChatRequest : Type := mkChatRequest {
  chat_now : nat -> Z;
  chat_reply : Completion (option string)
}.

Record Page : Type := mkPage {
  app : AppState;
  graphRequests : list GraphRequest;
  chatRequests : list ChatRequest
}.

Definition initialPage : Page :=
  {| app := initialAppState; graphRequests := []; chatRequests := [] |}.

Inductive Action : Type :=
| SubmitObjective (rt : Runtime) (now : nat -> Z) (objective : string)
| GraphSettles (k : nat)
| SubmitChat (rt : Runtime) (now : nat -> Z) (input : string)
| ReplySettles (k : nat)
| ClickCircle (k : nat)
| PressStyle.

(** [l] without its [k]-th element. *)
Definition without {A : Type} (k : nat) (l : list A) : list A :=
  (firstn k l ++ skipn (S k) l)%list.

Definition act (a : Action) (p : Page) : Page :=
  match a with
  | SubmitObjective rt now objective =>
      (* the setup form is rendered while [hasStarted] is false *)
      if hasStarted (app p) then p
      else match SetupModal_handleSubmit objective with
           | Some obj =>
               {| app := step StartSession_begin (app p);
                  graphRequests :=
                    (graphRequests p
                     ++ [ {| graph_now := now; graph_obj := obj;
                             graph_result := generateLearningGraph rt obj |} ])%list;
                  chatRequests := chatRequests p |}
           | None => p
           end
  | GraphSettles k =>
      match nth_error (graphRequests p) k with
      | Some r =>
          {| app := step (StartSession_settled (graph_now r) (graph_obj r) (graph_result r))
                         (app p);
             graphRequests := without k (graphRequests p);
             chatRequests := chatRequests p |}
      | None => p
      end
  | SubmitChat rt now input =>
      (* the chat form is rendered once [hasStarted] is true *)
      if negb (hasStarted (app p)) then p
      else match fst (ChatInterface_handleSubmit (isTyping (app p)) input) with
           | Some text =>
               match handleSendMessage_submit now text (app p) with
               | (Returned (history, context), app') =>
                   {| app := app';
                      graphRequests := graphRequests p;
                      chatRequests :=
                        (chatRequests p
                         ++ [ {| chat_now := now;
                                 chat_reply :=
                                   sendKickLangMessage rt history text context |} ])%list |}
               | (Thrown _, app') =>
                   {| app := app'; graphRequests := graphRequests p;
                      chatRequests := chatRequests p |}
               end
           | None => p
           end
  | ReplySettles k =>
      match nth_error (chatRequests p) k with
      | Some r =>
          {| app := step (SendMessage_settled (chat_now r) (chat_reply r)) (app p);
             graphRequests := graphRequests p;
             chatRequests := without k (chatRequests p) |}
      | None => p
      end
  | ClickCircle k =>
      (* the graph view is rendered once [hasStarted] is true *)
      if negb (hasStarted (app p)) then p
      else match nth_error (drawnNodes (graphData (app p))) k with
           | Some d =>
               {| app := exec (circleClick handleNodeClick d) (app p);
                  graphRequests := graphRequests p;
                  chatRequests := chatRequests p |}
           | None => p
           end
  | PressStyle =>
      if negb (hasStarted (app p)) then p
      else {| app := exec toggleStyle (app p);
              graphRequests := graphRequests p;
              chatRequests := chatRequests p |}
  end.

Definition browse (actions : list Action) (p : Page) : Page :=
  fold_left (fun acc a => act a acc) actions p.

(** ** More vocabulary *)

(** The history entry that stands for a message of the log. *)
Definition contentOf (m : Message) : Content :=
  {| role := match msg_role m with
             | user => "user"
             | model => "model"
             | system => "system"
             end;
     parts := [ {| part_text := msg_text m |} ] |}.

(** The current node id names a node of the graph, or the graph is empty
    and the id is [start]. *)
Definition currentNodeKnown (st : AppState) : Prop :=
  In (currentNodeId (kickLangState st)) (map node_id (nodes (graphData st)))
  \/ (nodes (graphData st) = [] /\ currentNodeId (kickLangState st) = "start").

(** The text of a message survives [trim]. *)
Definition notBlank (text : string) : Prop := trim text <> "".

(** What every action keeps: at most one chat request is pending, the
    typing flag is raised exactly while one is, every user message of the
    log has a text that is not blank, and the current node is known. *)
Definition pageInvariant (p : Page) : Prop :=
  (length (chatRequests p) <= 1)%nat
  /\ (isTyping (app p) = true <-> chatRequests p <> [])
  /\ Forall (fun m => msg_role m = user -> notBlank (msg_text m)) (messages (app p))
  /\ currentNodeKnown (app p).

(** A model that answers the graph request with a text that is not JSON. *)
Definition garbledRuntime : Runtime :=
  {| ai := {| models_generateContent := fun _ => Returned {| text := Some "Sorry, no." |};
              chats_sendMessage := fun _ _ => Returned {| text := Some "Sorry, no." |} |};
     JSON_parse := scenarioParse |}.

(** * Properties *)

(** ** Substring search *)

Section Includes.

Lemma prefix_append (needle rest : string) : String.prefix needle (needle ++ rest) = true.
Proof.
  induction needle as [|c needle IH]; simpl.
  - now destruct rest.
  - destruct (ascii_dec c c) as [_|ne]; [exact IH | now elim ne].
Qed.

Lemma prefix_split (needle s : string) :
  String.prefix needle s = true -> exists rest, s = needle ++ rest.
Proof.
  revert s; induction needle as [|c needle IH]; intros s H.
  - now exists s.
  - destruct s as [|d s]; simpl in H; [discriminate|].
    destruct (ascii_dec c d) as [->|]; [|discriminate].
    destruct (IH s H) as [rest ->]. now exists rest.
Qed.

Lemma string_app_assoc (a b c : string) : (a ++ b) ++ c = a ++ (b ++ c).
Proof. induction a as [|x a IH]; simpl; [reflexivity | now rewrite IH]. Qed.

Lemma includes_prefix (s needle : string) :
  String.prefix needle s = true -> includes s needle = true.
Proof. intros H. destruct s; cbn [includes]; now rewrite H. Qed.

(** A text includes whatever stands between a left and a right context. *)
Lemma includes_infix (before needle after : string) :
  includes (before ++ needle ++ after) needle = true.
Proof.
  induction before as [|c before IH]; cbn [includes append].
  - apply includes_prefix, prefix_append.
  - destruct (String.prefix needle (String c (before ++ needle ++ after)));
      [reflexivity | exact IH].
Qed.

Lemma includes_split (s needle : string) :
  includes s needle = true -> exists before after, s = before ++ needle ++ after.
Proof.
  induction s as [|c s IH]; cbn [includes]; intros H.
  - destruct (String.prefix needle "") eqn:P; [|discriminate].
    destruct (prefix_split _ _ P) as [rest E]. now exists "", rest.
  - destruct (String.prefix needle (String c s)) eqn:P.
    + destruct (prefix_split _ _ P) as [rest E]. now exists "", rest.
    + destruct (IH H) as (before & after & ->). now exists (String c before), after.
Qed.

(** Containment is transitive: a text that includes [middle] includes
    every substring of [middle]. *)
Lemma includes_trans (s middle needle : string) :
  includes s middle = true -> includes middle needle = true -> includes s needle = true.
Proof.
  intros H1 H2.
  destruct (includes_split _ _ H1) as (b1 & a1 & ->).
  destruct (includes_split _ _ H2) as (b2 & a2 & ->).
  replace (b1 ++ (b2 ++ needle ++ a2) ++ a1) with ((b1 ++ b2) ++ needle ++ (a2 ++ a1)).
  - apply includes_infix.
  - now rewrite !string_app_assoc.
Qed.

(** A text without the bold delimiter contains no bold-prefixed name. *)
Lemma no_bold_no_marker (s name : string) :
  includes s "**" = false -> includes s ("**" ++ name) = false.
Proof.
  intros H. destruct (includes s ("**" ++ name)) eqn:E; [|reflexivity].
  rewrite <- H. symmetry. apply includes_trans with (middle := "**" ++ name); [exact E|].
  apply (includes_infix "" "**" name).
Qed.

End Includes.

(** ** The graph adapter *)

Section GraphAdapter.

Variable rt : Runtime.
Variable objective : string.

(** The adapter returns on every path: its [catch] block turns every
    exception into the fallback graph. *)
Lemma generateLearningGraph_returns :
  exists g, generateLearningGraph rt objective = Returned g.
Proof.
  unfold generateLearningGraph, try_catch, JS.bind.
  destruct (models_generateContent (ai rt) (graphRequest objective)) as [[[t|]]|e];
    cbn [text]; [|eexists; reflexivity..].
  destruct (truthy (Some t)); [|eexists; reflexivity].
  destruct (JSON_parse rt t); eexists; reflexivity.
Qed.

(** A parsed model output is handed back as it is. *)
Lemma generateLearningGraph_verbatim (t : string) (g : LearningGraphData) :
  models_generateContent (ai rt) (graphRequest objective) = Returned {| text := Some t |} ->
  t <> "" ->
  JSON_parse rt t = Returned g ->
  generateLearningGraph rt objective = Returned g.
Proof.
  intros Hcall Ht Hparse.
  unfold generateLearningGraph, try_catch, JS.bind. rewrite Hcall. cbn [text truthy].
  apply String.eqb_neq in Ht. rewrite Ht. cbn [negb]. now rewrite Hparse.
Qed.

Lemma generateLearningGraph_cases :
  generateLearningGraph rt objective = Returned fallbackGraph
  \/ exists t g,
       models_generateContent (ai rt) (graphRequest objective) = Returned {| text := Some t |}
       /\ t <> ""
       /\ JSON_parse rt t = Returned g
       /\ generateLearningGraph rt objective = Returned g.
Proof.
  unfold generateLearningGraph, try_catch, JS.bind.
  destruct (models_generateContent (ai rt) (graphRequest objective)) as [[[t|]]|e];
    [|now left..].
  cbn [text truthy]. destruct (String.eqb_spec t "") as [->|Ht]; cbn [negb]; [now left|].
  destruct (JSON_parse rt t) as [g|e] eqn:Hparse; [|now left].
  right. exists t, g. repeat split; auto.
Qed.

(** A text that [JSON.parse] rejects ends in the fallback graph as well. *)
Lemma generateLearningGraph_parse_error (t : string) (e : JS.Error) :
  models_generateContent (ai rt) (graphRequest objective) = Returned {| text := Some t |} ->
  JSON_parse rt t = Thrown e ->
  generateLearningGraph rt objective = Returned fallbackGraph.
Proof.
  intros Hcall Hparse.
  unfold generateLearningGraph, try_catch, JS.bind. rewrite Hcall. cbn [text].
  destruct (truthy (Some t)); [now rewrite Hparse | reflexivity].
Qed.

End GraphAdapter.

(** C1, as stated, fails: in the end-to-end scenario of the specification
    the model answers with a two-node graph; the adapter returns it, and it
    is neither a graph with a [start] node and 6 to 10 nodes nor the
    fallback graph. *)
Lemma generateLearningGraph_shape_counterexample :
  exists g,
    generateLearningGraph scenarioRuntime "Learn recursion" = Returned g
    /\ requestedShape g = false
    /\ g <> fallbackGraph.
Proof.
  exists scenarioGraph. repeat split; [reflexivity..|discriminate].
Qed.

(** C1 (amended): for every objective and every behaviour of the model and
    of [JSON.parse], [generateLearningGraph] returns either the parsed model
    output exactly as parsed, whatever its shape, or the fallback graph; the
    first whenever the model call fulfils with a non-empty text that
    [JSON.parse] accepts. *)
Theorem generateLearningGraph_verbatim_or_fallback (rt : Runtime) (objective : string) :
  (forall t g,
      models_generateContent (ai rt) (graphRequest objective) = Returned {| text := Some t |} ->
      t <> "" ->
      JSON_parse rt t = Returned g ->
      generateLearningGraph rt objective = Returned g)
  /\ (generateLearningGraph rt objective = Returned fallbackGraph
      \/ exists t g,
           models_generateContent (ai rt) (graphRequest objective)
             = Returned {| text := Some t |}
           /\ t <> ""
           /\ JSON_parse rt t = Returned g
           /\ generateLearningGraph rt objective = Returned g).
Proof.
  split.
  - intros t g. apply generateLearningGraph_verbatim.
  - apply generateLearningGraph_cases.
Qed.

Lemma generateLearningGraph_verbatim_or_fallback_witness :
  generateLearningGraph scenarioRuntime "Learn recursion" = Returned scenarioGraph.
Proof.
  apply (proj1 (generateLearningGraph_verbatim_or_fallback scenarioRuntime "Learn recursion")
           scenarioText scenarioGraph).
  - reflexivity.
  - discriminate.
  - reflexivity.
Defined.

(** C2: whenever the model call of [generateLearningGraph] throws, or the
    response has no text or an empty text, the adapter returns the fallback
    graph, which has the single active node [start] labelled [Start] and no
    link; and on no path does the adapter throw. *)
Theorem generateLearningGraph_fallback (rt : Runtime) (objective : string) :
  graphInvocationFails rt objective = true ->
  generateLearningGraph rt objective = Returned fallbackGraph
  /\ nodes fallbackGraph
     = [ {| node_id := "start"; node_label := "Start"; node_status := active;
            node_group := None |} ]
  /\ links fallbackGraph = []
  /\ (forall rt' objective', exists g, generateLearningGraph rt' objective' = Returned g).
Proof.
  intros H. repeat split; [|apply generateLearningGraph_returns].
  unfold graphInvocationFails in H.
  unfold generateLearningGraph, try_catch, JS.bind.
  destruct (models_generateContent (ai rt) (graphRequest objective)) as [[[t|]]|e];
    cbn [text] in *; try reflexivity.
  apply negb_true_iff in H. now rewrite H.
Qed.

Lemma generateLearningGraph_fallback_witness :
  generateLearningGraph offlineRuntime "Learn recursion" = Returned fallbackGraph
  /\ generateLearningGraph silentRuntime "Learn recursion" = Returned fallbackGraph.
Proof.
  split.
  - apply (generateLearningGraph_fallback offlineRuntime "Learn recursion"). reflexivity.
  - apply (generateLearningGraph_fallback silentRuntime "Learn recursion"). reflexivity.
Defined.

(** ** The chat adapter *)

(** The chat adapter returns on every path. *)
Lemma sendKickLangMessage_returns (rt : Runtime) (history : list Content) (message : string)
    (context : ChatContext) :
  exists reply, sendKickLangMessage rt history message context = Returned reply.
Proof.
  unfold sendKickLangMessage, try_catch, JS.bind.
  destruct (chats_sendMessage (ai rt) (chatParameters history context) message);
    eexists; reflexivity.
Qed.

(** C3: whenever the chat round trip throws, [sendKickLangMessage] returns
    the constant [chatErrorText], whatever the history, the message and the
    context; it does not throw; and a model that answers with that very
    text gives the caller the same result. *)
Theorem sendKickLangMessage_failure (rt : Runtime) (history : list Content)
    (message : string) (context : ChatContext) :
  chatInvocationFails rt history message context = true ->
  sendKickLangMessage rt history message context = Returned (Some chatErrorText)
  /\ chatInvocationFails (echoRuntime chatErrorText) history message context = false
  /\ sendKickLangMessage (echoRuntime chatErrorText) history message context
     = sendKickLangMessage rt history message context.
Proof.
  intros H. unfold chatInvocationFails in H.
  assert (E : sendKickLangMessage rt history message context = Returned (Some chatErrorText)).
  { unfold sendKickLangMessage, try_catch, JS.bind.
    destruct (chats_sendMessage (ai rt) (chatParameters history context) message);
      [discriminate | reflexivity]. }
  rewrite E. repeat split; reflexivity.
Qed.

Lemma sendKickLangMessage_failure_witness :
  sendKickLangMessage offlineRuntime [] "hello" (chatContextOf initialAppState)
  = Returned (Some chatErrorText).
Proof.
  apply (sendKickLangMessage_failure offlineRuntime [] "hello" (chatContextOf initialAppState)).
  reflexivity.
Defined.

(** ** The author-tag heuristic *)

(** The nested conditionals of [src/App.tsx] are a first-match search over
    [personaMarkers]. *)
Lemma authorOf_firstMarker (responseText : string) :
  authorOf responseText = firstMarker personaMarkers responseText.
Proof.
  unfold authorOf, firstMarker, personaMarkers. cbn [find append].
  repeat match goal with |- context [includes responseText ?m] =>
    destruct (includes responseText m) end; reflexivity.
Qed.

Lemma authorOf_swarm_firstMarker (responseText : string) :
  authorOf_swarm responseText = firstMarker personaMarkers_swarm responseText.
Proof.
  unfold authorOf_swarm, firstMarker, personaMarkers_swarm. cbn [find append].
  repeat match goal with |- context [includes responseText ?m] =>
    destruct (includes responseText m) end; reflexivity.
Qed.

(** Whatever the list of markers, the first-match search answers with one
    of them or with the default. *)
Lemma firstMarker_In (markers : list string) (responseText : string) :
  In (firstMarker markers responseText) ("AI_Tutor" :: markers).
Proof.
  unfold firstMarker.
  destruct (find _ markers) as [name|] eqn:F.
  - right. now apply find_some in F.
  - now left.
Qed.

Lemma firstMarker_default (markers : list string) (responseText : string) :
  includes responseText "**" = false -> firstMarker markers responseText = "AI_Tutor".
Proof.
  intros H. unfold firstMarker.
  destruct (find _ markers) as [name|] eqn:F; [|reflexivity].
  apply find_some in F. destruct F as [_ F].
  now rewrite (no_bold_no_marker _ name H) in F.
Qed.

Lemma includes_ScopeGuard (responseText : string) :
  includes responseText "**ScopeGuard:** focus" = true ->
  includes responseText "**ScopeGuard" = true.
Proof.
  intros H. apply includes_trans with (middle := "**ScopeGuard:** focus"); [exact H|].
  reflexivity.
Qed.

(** C4: the classifier of [src/App.tsx] is a total function of the response
    text; its value is one of [AI_Tutor], [ScopeGuard], [DebuggAI] and [Dima];
    it is the first persona, in that order, whose bold-prefixed name the text
    includes, and [AI_Tutor] when the text has no bold marker; every text
    that includes [**ScopeGuard:** focus] is classified [ScopeGuard]. The
    classifier of the later revision is the same search over its longer
    list, which tests [Orchestrator] before [ScopeGuard]. *)
Theorem authorOf_classifies (responseText : string) :
  In (authorOf responseText) ("AI_Tutor" :: personaMarkers)
  /\ authorOf responseText = firstMarker personaMarkers responseText
  /\ (includes responseText "**ScopeGuard:** focus" = true ->
      authorOf responseText = "ScopeGuard")
  /\ (includes responseText "**" = false -> authorOf responseText = "AI_Tutor")
  /\ In (authorOf_swarm responseText) ("AI_Tutor" :: personaMarkers_swarm)
  /\ authorOf_swarm responseText = firstMarker personaMarkers_swarm responseText
  /\ (includes responseText "**ScopeGuard:** focus" = true ->
      includes responseText "**Orchestrator" = false ->
      authorOf_swarm responseText = "ScopeGuard")
  /\ (includes responseText "**" = false -> authorOf_swarm responseText = "AI_Tutor")
  /\ authorOf_swarm "**ScopeGuard:** focus" = "ScopeGuard".
Proof.
  repeat apply conj.
  - rewrite authorOf_firstMarker. apply firstMarker_In.
  - apply authorOf_firstMarker.
  - intros H. unfold authorOf. now rewrite (includes_ScopeGuard _ H).
  - intros H. rewrite authorOf_firstMarker. now apply firstMarker_default.
  - rewrite authorOf_swarm_firstMarker. apply firstMarker_In.
  - apply authorOf_swarm_firstMarker.
  - intros H O. unfold authorOf_swarm. now rewrite O, (includes_ScopeGuard _ H).
  - intros H. rewrite authorOf_swarm_firstMarker. now apply firstMarker_default.
  - reflexivity.
Qed.

Lemma authorOf_classifies_witness :
  authorOf "**ScopeGuard:** focus" = "ScopeGuard"
  /\ authorOf "Recursion needs a base case." = "AI_Tutor"
  /\ authorOf_swarm "**ScopeGuard:** focus" = "ScopeGuard"
  /\ authorOf_swarm "Recursion needs a base case." = "AI_Tutor".
Proof.
  pose proof (authorOf_classifies "**ScopeGuard:** focus") as (_ & _ & S & _ & _ & _ & S' & _).
  pose proof (authorOf_classifies "Recursion needs a base case.")
    as (_ & _ & _ & T & _ & _ & _ & T' & _).
  repeat apply conj.
  - apply S. reflexivity.
  - apply T. reflexivity.
  - apply S'; reflexivity.
  - apply T'. reflexivity.
Defined.

(** ** The handlers of the session state holder *)

Section SendMessage.

Variable now : nat -> Z.
Variable text : string.
Variable st : AppState.

(** What the synchronous part of [handleSendMessage] does. *)
Lemma handleSendMessage_submit_eq :
  handleSendMessage_submit now text st
  = (Returned ((chatHistoryRef st ++ [userTurn text])%list, chatContextOf st),
     {| hasStarted := hasStarted st; isLoading := isLoading st; isTyping := true;
        kickLangState := kickLangState st; graphData := graphData st;
        messages := (messages st ++ [userMsg now text])%list;
        chatHistoryRef := (chatHistoryRef st ++ [userTurn text])%list |}).
Proof. reflexivity. Qed.

(** The optimistic user message is in the log as soon as the handler
    reaches its [await]. *)
Lemma handleSendMessage_submit_appends :
  messages (exec (handleSendMessage_submit now text) st)
  = (messages st ++ [userMsg now text])%list.
Proof. reflexivity. Qed.

(** A reply with a text appends the model message. *)
Lemma handleSendMessage_resume_text (responseText : string) :
  messages (exec (handleSendMessage_resume now (Returned (Some responseText))) st)
  = (messages st ++ [botMsg now (authorOf responseText) responseText])%list.
Proof. reflexivity. Qed.

(** A reply without text, or a rejected promise, appends nothing: the
    [catch] block only logs. *)
Lemma handleSendMessage_resume_no_text (reply : Completion (option string)) :
  reply = Returned None \/ (exists e, reply = Thrown e) ->
  messages (exec (handleSendMessage_resume now reply) st) = messages st.
Proof. intros [->|[e ->]]; reflexivity. Qed.

(** The log only ever grows under the continuation. *)
Lemma handleSendMessage_resume_append_only (reply : Completion (option string)) :
  exists added,
    messages (exec (handleSendMessage_resume now reply) st) = (messages st ++ added)%list
    /\ (length added <= 1)%nat.
Proof.
  destruct reply as [[responseText|]|e].
  - eexists. split; [apply handleSendMessage_resume_text | simpl; lia].
  - exists []. split; [now rewrite app_nil_r | simpl; lia].
  - exists []. split; [now rewrite app_nil_r | simpl; lia].
Qed.

(** The whole handler, in terms of what the adapter returned. *)
Lemma handleSendMessage_messages (rt : Runtime) :
  messages (exec (handleSendMessage rt now text) st)
  = match sendKickLangMessage rt (chatHistoryRef st ++ [userTurn text]) text (chatContextOf st) with
    | Returned (Some responseText) =>
        (messages st ++ [userMsg now text; botMsg now (authorOf responseText) responseText])%list
    | _ => (messages st ++ [userMsg now text])%list
    end.
Proof.
  unfold handleSendMessage, exec, hbind. rewrite handleSendMessage_submit_eq.
  cbn [fst snd].
  destruct (sendKickLangMessage rt _ text (chatContextOf st)) as [[responseText|]|e];
    cbn; try reflexivity.
  now rewrite <- app_assoc.
Qed.

(** The log under one call of [handleSendMessage]: the messages already
    there stay in place, the user message is appended at submission, and
    the model message follows at completion when the adapter returned a
    text. *)
Lemma handleSendMessage_appends (rt : Runtime) :
  appended 1 (messages st) (messages (exec (handleSendMessage_submit now text) st))
  /\ (forall responseText,
        sendKickLangMessage rt (chatHistoryRef st ++ [userTurn text]) text (chatContextOf st)
        = Returned (Some responseText) ->
        appended 2 (messages st) (messages (exec (handleSendMessage rt now text) st)))
  /\ (sendKickLangMessage rt (chatHistoryRef st ++ [userTurn text]) text (chatContextOf st)
      = Returned None ->
      appended 1 (messages st) (messages (exec (handleSendMessage rt now text) st))).
Proof.
  repeat apply conj.
  - exists [userMsg now text]. now rewrite handleSendMessage_submit_appends.
  - intros responseText E. rewrite handleSendMessage_messages, E. now eexists.
  - intros E. rewrite handleSendMessage_messages, E. now eexists.
Qed.

End SendMessage.

(** C5 at the failing input: when the hosted model answers a chat turn with
    a response that carries no text, [sendKickLangMessage] returns
    [undefined], the handler throws on its first [includes] and its [catch]
    block swallows the error: the completed call has grown the log by the
    user message alone. *)
Theorem handleSendMessage_silent_model (now : nat -> Z) (text : string) (st : AppState) :
  sendKickLangMessage silentRuntime
    (chatHistoryRef st ++ [userTurn text])
    text (chatContextOf st) = Returned None
  /\ messages (exec (handleSendMessage silentRuntime now text) st)
     = (messages st ++ [userMsg now text])%list
  /\ length (messages (exec (handleSendMessage silentRuntime now text) st))
     = (length (messages st) + 1)%nat
  /\ isTyping (exec (handleSendMessage silentRuntime now text) st) = false.
Proof.
  repeat apply conj; try reflexivity.
  cbn. rewrite length_app. reflexivity.
Qed.

(** What [handleStartSession] leaves behind, in terms of the graph the
    adapter returned. *)
Lemma handleStartSession_eq (rt : Runtime) (now : nat -> Z) (obj : string) (st : AppState)
    (graph : LearningGraphData) :
  generateLearningGraph rt obj = Returned graph ->
  handleStartSession rt now obj st
  = (Returned tt,
     {| hasStarted := true; isLoading := false; isTyping := isTyping st;
        kickLangState :=
          {| objective := obj;
             learningStyle := learningStyle (kickLangState st);
             currentNodeId :=
               match nodes graph with first :: _ => node_id first | [] => "start" end;
             difficulty := difficulty (kickLangState st) |};
        graphData := graph;
        messages := [ {| msg_id := "init-1"; msg_role := model;
                         authorName := Some "AI_Tutor";
                         msg_text := welcomeText obj graph;
                         timestamp := now 0%nat |} ];
        chatHistoryRef :=
          [ {| role := "model"; parts := [ {| part_text := welcomeText obj graph |} ] |} ] |}).
Proof.
  intros H. unfold handleStartSession, hbind. cbn [setIsLoading].
  unfold handleStartSession_resume, try_catch_finally, hbind, await. rewrite H.
  reflexivity.
Qed.

(** The welcome text names the label it was built from. *)
Lemma welcomeText_includes_label (obj : string) (graph : LearningGraphData)
    (first : GraphNode) (rest : list GraphNode) :
  nodes graph = first :: rest ->
  includes (welcomeText obj graph) (node_label first) = true.
Proof.
  intros E. unfold welcomeText. rewrite E. cbn [nth_error option_map or_default].
  destruct (node_label first =? "") eqn:L; cbn [negb].
  - apply String.eqb_eq in L. rewrite L.
    apply includes_prefix. now destruct (_ ++ _).
  - rewrite <- string_app_assoc, <- string_app_assoc.
    apply includes_infix.
Qed.

(** With a non-empty label the text reads "We are starting at" followed by
    the label in bold; with no node it names [Start]. *)
Lemma welcomeText_starting_at (obj : string) (graph : LearningGraphData)
    (first : GraphNode) (rest : list GraphNode) :
  nodes graph = first :: rest ->
  node_label first <> "" ->
  includes (welcomeText obj graph) ("We are starting at **" ++ node_label first ++ "**")
  = true.
Proof.
  intros E L. unfold welcomeText. rewrite E. cbn [nth_error option_map or_default].
  apply String.eqb_neq in L. rewrite L. cbn [negb].
  match goal with |- includes (_ ++ obj ++ _ ++ node_label first ++ _ ++ ?tail) _ = true =>
    replace (includes _ _)
      with (includes
              (("Welcome! I've loaded the knowledge graph for **" ++ obj ++ "**. ")
               ++ ("We are starting at **" ++ node_label first ++ "**")
               ++ (". " ++ tail))
              ("We are starting at **" ++ node_label first ++ "**"))
  end.
  - apply includes_infix.
  - f_equal. rewrite !string_app_assoc. reflexivity.
Qed.

Lemma welcomeText_no_node (obj : string) (graph : LearningGraphData) :
  nodes graph = [] ->
  includes (welcomeText obj graph) "We are starting at **Start**" = true.
Proof.
  intros E. unfold welcomeText. rewrite E. cbn [nth_error option_map or_default].
  match goal with |- includes (_ ++ obj ++ _ ++ _ ++ _ ++ ?tail) _ = true =>
    replace (includes _ _)
      with (includes
              (("Welcome! I've loaded the knowledge graph for **" ++ obj ++ "**. ")
               ++ "We are starting at **Start**"
               ++ (". " ++ tail))
              "We are starting at **Start**")
  end.
  - apply includes_infix.
  - f_equal. rewrite !string_app_assoc. reflexivity.
Qed.

(** C6: for every objective, [handleStartSession] stores the graph that
    [generateLearningGraph] returned, makes the id of its first node the
    current node ([start] when it has no node), and replaces the log by one
    welcome message of the tutor whose text includes the label of the first
    node (in bold after "We are starting at" when the label is not empty;
    [Start] stands there when the graph has no node); with a first node
    [start] labelled [Start] the current node is [start] and the one
    message names [Start]. *)
Theorem handleStartSession_sets_session (rt : Runtime) (now : nat -> Z) (obj : string)
    (st : AppState) :
  exists graph welcome,
    generateLearningGraph rt obj = Returned graph
    /\ graphData (exec (handleStartSession rt now obj) st) = graph
    /\ objective (kickLangState (exec (handleStartSession rt now obj) st)) = obj
    /\ (nodes graph = [] ->
        currentNodeId (kickLangState (exec (handleStartSession rt now obj) st)) = "start")
    /\ (forall first rest, nodes graph = first :: rest ->
        currentNodeId (kickLangState (exec (handleStartSession rt now obj) st))
        = node_id first)
    /\ messages (exec (handleStartSession rt now obj) st) = [welcome]
    /\ msg_role welcome = model
    /\ authorName welcome = Some "AI_Tutor"
    /\ msg_text welcome = welcomeText obj graph
    /\ (forall first rest, nodes graph = first :: rest ->
        includes (msg_text welcome) (node_label first) = true)
    /\ (forall first rest, nodes graph = first :: rest -> node_label first <> "" ->
        includes (msg_text welcome)
          ("We are starting at **" ++ node_label first ++ "**") = true)
    /\ (nodes graph = [] ->
        includes (msg_text welcome) "We are starting at **Start**" = true)
    /\ hasStarted (exec (handleStartSession rt now obj) st) = true
    /\ (forall rest,
        nodes graph
        = {| node_id := "start"; node_label := "Start"; node_status := active;
             node_group := None |} :: rest ->
        currentNodeId (kickLangState (exec (handleStartSession rt now obj) st)) = "start"
        /\ length (messages (exec (handleStartSession rt now obj) st)) = 1%nat
        /\ includes (msg_text welcome) "Start" = true).
Proof.
  destruct (generateLearningGraph_returns rt obj) as [graph H].
  exists graph. eexists.
  unfold exec. rewrite (handleStartSession_eq rt now obj st graph H). cbn [snd].
  cbn [graphData kickLangState objective currentNodeId messages hasStarted
       msg_role authorName msg_text].
  repeat apply conj; try reflexivity.
  - exact H.
  - now intros ->.
  - now intros first rest ->.
  - intros first rest. cbn [msg_text]. apply welcomeText_includes_label.
  - intros first rest. cbn [msg_text]. apply welcomeText_starting_at.
  - cbn [msg_text]. apply welcomeText_no_node.
  - intros rest E. rewrite E. repeat apply conj; try reflexivity.
    cbn [msg_text]. apply (welcomeText_includes_label obj graph _ rest E).
Qed.

Lemma handleStartSession_sets_session_witness :
  exists welcome,
    messages (exec (handleStartSession scenarioRuntime frozenClock "Learn recursion")
                initialAppState) = [welcome]
    /\ includes (msg_text welcome) "Start" = true
    /\ currentNodeId (kickLangState
         (exec (handleStartSession scenarioRuntime frozenClock "Learn recursion")
            initialAppState)) = "start".
Proof.
  destruct (handleStartSession_sets_session scenarioRuntime frozenClock "Learn recursion"
              initialAppState)
    as (graph & welcome & G & _ & _ & _ & _ & M & _ & _ & _ & _ & _ & _ & _ & S).
  exists welcome.
  assert (E : graph = scenarioGraph).
  { change (Returned scenarioGraph = Returned graph) in G. injection G as <-. reflexivity. }
  destruct (S (tl (nodes scenarioGraph))) as (C & _ & I).
  - rewrite E. reflexivity.
  - repeat apply conj; assumption.
Defined.

(** One call of [toggleStyle] on the style alone. *)
Lemma toggleStyle_style (st : AppState) :
  learningStyle (kickLangState (exec toggleStyle st))
  = match learningStyle (kickLangState st) with
    | Socratic => Direct
    | Direct | Hybrid => Socratic
    end.
Proof. unfold exec, toggleStyle, setKickLangState. cbn. now destruct (learningStyle _). Qed.

(** C7: from any learning style, Hybrid included, one or more calls of
    [toggleStyle] leave the style Socratic or Direct, never Hybrid; from
    then on every call changes the style and every second call restores
    it. *)
Theorem toggleStyle_never_Hybrid (st : AppState) (n : nat) :
  (0 < n)%nat ->
  (learningStyle (kickLangState (toggleStyle_times n st)) = Socratic
   \/ learningStyle (kickLangState (toggleStyle_times n st)) = Direct)
  /\ learningStyle (kickLangState (toggleStyle_times n st)) <> Hybrid
  /\ learningStyle (kickLangState (toggleStyle_times (S n) st))
     <> learningStyle (kickLangState (toggleStyle_times n st))
  /\ learningStyle (kickLangState (toggleStyle_times (S (S n)) st))
     = learningStyle (kickLangState (toggleStyle_times n st)).
Proof.
  intros Hn. destruct n as [|n]; [lia|].
  cbn [toggleStyle_times]. rewrite !toggleStyle_style.
  destruct (learningStyle (kickLangState (toggleStyle_times n st)));
    repeat apply conj; try discriminate; auto.
Qed.

Lemma toggleStyle_never_Hybrid_witness :
  (0 < 3)%nat
  /\ learningStyle (kickLangState (toggleStyle_times 3 hybridAppState)) <> Hybrid.
Proof.
  assert (H : (0 < 3)%nat) by lia.
  split; [exact H|].
  exact (proj1 (proj2 (toggleStyle_never_Hybrid hybridAppState 3 H))).
Defined.

(** C8: [handleNodeClick] makes its argument the current node id, whatever
    the graph holds, and does not throw. *)
Theorem handleNodeClick_sets_currentNodeId (st : AppState) (nodeId : string) :
  currentNodeId (kickLangState (exec (handleNodeClick nodeId) st)) = nodeId
  /\ fst (handleNodeClick nodeId st) = Returned tt
  /\ graphData (exec (handleNodeClick nodeId) st) = graphData st.
Proof. repeat apply conj; reflexivity. Qed.

(** The asynchronous handlers are two steps of a run each. *)
Lemma handleStartSession_steps (rt : Runtime) (now : nat -> Z) (obj : string)
    (st : AppState) :
  exec (handleStartSession rt now obj) st
  = run [StartSession_begin;
         StartSession_settled now obj (generateLearningGraph rt obj)] st.
Proof.
  unfold run, exec, handleStartSession, hbind. cbn [fold_left step exec setIsLoading snd].
  reflexivity.
Qed.

Lemma handleSendMessage_steps (rt : Runtime) (now : nat -> Z) (text : string)
    (st : AppState) :
  exec (handleSendMessage rt now text) st
  = run [SendMessage_submitted now text;
         SendMessage_settled now
           (sendKickLangMessage rt (chatHistoryRef st ++ [userTurn text]) text
              (chatContextOf st))] st.
Proof.
  unfold run, exec, handleSendMessage, hbind. cbn [fold_left step exec].
  rewrite handleSendMessage_submit_eq. reflexivity.
Qed.

(** No step of the component writes [difficulty]. *)
Lemma step_difficulty (s : Step) (st : AppState) :
  difficulty (kickLangState (step s st)) = difficulty (kickLangState st).
Proof.
  destruct s as [|now obj [graph|e]|now text|now [[responseText|]|e]|nodeId|]; reflexivity.
Qed.

Lemma run_difficulty (steps : list Step) (st : AppState) :
  difficulty (kickLangState (run steps st)) = difficulty (kickLangState st).
Proof.
  revert st. induction steps as [|s steps IH]; intros st; [reflexivity|].
  unfold run in *. cbn [fold_left]. now rewrite IH, step_difficulty.
Qed.

(** C9: [handleNodeClick] writes [currentNodeId] and nothing else,
    [toggleStyle] writes [learningStyle] and nothing else, and after any
    sequence of steps from the initial state [difficulty] is still
    [intermediate]. *)
Theorem session_frame :
  (forall st nodeId,
      objective (kickLangState (exec (handleNodeClick nodeId) st))
      = objective (kickLangState st)
      /\ learningStyle (kickLangState (exec (handleNodeClick nodeId) st))
         = learningStyle (kickLangState st)
      /\ difficulty (kickLangState (exec (handleNodeClick nodeId) st))
         = difficulty (kickLangState st))
  /\ (forall st,
      objective (kickLangState (exec toggleStyle st)) = objective (kickLangState st)
      /\ currentNodeId (kickLangState (exec toggleStyle st))
         = currentNodeId (kickLangState st)
      /\ difficulty (kickLangState (exec toggleStyle st)) = difficulty (kickLangState st))
  /\ (forall steps,
      difficulty (kickLangState (run steps initialAppState)) = "intermediate").
Proof.
  split; [|split].
  - intros st nodeId. repeat apply conj; reflexivity.
  - intros st. repeat apply conj; reflexivity.
  - intros steps. now rewrite run_difficulty.
Qed.

(** C10: the text the chat adapter returns when the model call throws
    includes none of the markers of the heuristic, so the message the
    handler appends for it is attributed to [AI_Tutor]. *)
Theorem chat_failure_author (rt : Runtime) (now : nat -> Z) (text : string) (st : AppState) :
  chatInvocationFails rt
    (chatHistoryRef st ++ [userTurn text])
    text (chatContextOf st) = true ->
  forallb (fun name => negb (includes chatErrorText ("**" ++ name))) personaMarkers = true
  /\ forallb (fun name => negb (includes chatErrorText ("**" ++ name))) personaMarkers_swarm
     = true
  /\ authorOf chatErrorText = "AI_Tutor"
  /\ authorOf_swarm chatErrorText = "AI_Tutor"
  /\ exists reply,
       messages (exec (handleSendMessage rt now text) st)
       = (messages st ++ [userMsg now text; reply])%list
       /\ msg_role reply = model
       /\ msg_text reply = chatErrorText
       /\ authorName reply = Some "AI_Tutor".
Proof.
  intros H. repeat apply conj; try reflexivity.
  exists (botMsg now "AI_Tutor" chatErrorText). repeat apply conj; try reflexivity.
  rewrite handleSendMessage_messages.
  unfold chatInvocationFails in H. unfold sendKickLangMessage, try_catch, JS.bind.
  destruct (chats_sendMessage (ai rt) _ text); [discriminate|reflexivity].
Qed.

Lemma chat_failure_author_witness :
  exists reply,
    messages (exec (handleSendMessage offlineRuntime frozenClock "hello") initialAppState)
    = [userMsg frozenClock "hello"; reply]
    /\ msg_role reply = model
    /\ msg_text reply = chatErrorText
    /\ authorName reply = Some "AI_Tutor".
Proof.
  apply (chat_failure_author offlineRuntime frozenClock "hello" initialAppState).
  reflexivity.
Defined.

(** * Further properties of the adapters *)

(** ** The history sent to the model *)

Lemma formattedHistory_fixed (history : list Content) :
  Forall (fun c => role c = "model" \/ role c = "user") history ->
  formattedHistory history = history.
Proof.
  induction 1 as [|c history Hc _ IH]; [reflexivity|].
  unfold formattedHistory in *. cbn [map]. rewrite IH. f_equal.
  destruct c as [r ps]. cbn [role parts] in *.
  destruct Hc as [-> | ->]; reflexivity.
Qed.

Lemma formattedHistory_Forall (history : list Content) :
  Forall (fun c => role c = "model" \/ role c = "user") (formattedHistory history).
Proof.
  induction history as [|c history IH]; constructor; [|exact IH].
  cbn [role]. destruct (role c =? "model"); auto.
Qed.

(** X1: [formattedHistory] keeps the entries of the history in number, in
    order and with their parts, leaves every role [model] or [user]
    ([model] only where it was [model]), and changes nothing when applied
    again. *)
Theorem formattedHistory_normalises (history : list Content) :
  length (formattedHistory history) = length history
  /\ map parts (formattedHistory history) = map parts history
  /\ Forall (fun c => role c = "model" \/ role c = "user") (formattedHistory history)
  /\ map (fun c => role c =? "model") (formattedHistory history)
     = map (fun c => role c =? "model") history
  /\ formattedHistory (formattedHistory history) = formattedHistory history.
Proof.
  repeat apply conj.
  - apply length_map.
  - unfold formattedHistory. rewrite map_map. reflexivity.
  - apply formattedHistory_Forall.
  - unfold formattedHistory. rewrite map_map. apply map_ext. intros c. cbn [role].
    destruct (role c =? "model"); reflexivity.
  - apply formattedHistory_fixed, formattedHistory_Forall.
Qed.

(** ** A reply that is not JSON *)

(** X2: when the model answers the graph request with a text that
    [JSON.parse] rejects, [generateLearningGraph] returns the fallback
    graph. *)
Theorem generateLearningGraph_unparsable (rt : Runtime) (objective t : string)
    (e : JS.Error) :
  models_generateContent (ai rt) (graphRequest objective) = Returned {| text := Some t |} ->
  JSON_parse rt t = Thrown e ->
  generateLearningGraph rt objective = Returned fallbackGraph.
Proof.
  intros Hcall Hparse. exact (generateLearningGraph_parse_error rt objective t e Hcall Hparse).
Qed.

Lemma generateLearningGraph_unparsable_witness :
  generateLearningGraph garbledRuntime "Learn recursion" = Returned fallbackGraph.
Proof.
  apply (generateLearningGraph_unparsable garbledRuntime "Learn recursion" "Sorry, no."
           (mkError "SyntaxError" "Unexpected token")).
  - reflexivity.
  - reflexivity.
Defined.

(** ** What the prompts carry *)

Lemma string_app_nil (s : string) : s ++ "" = s.
Proof. induction s as [|c s IH]; [reflexivity | cbn; now rewrite IH]. Qed.

Lemma includes_suffix (before s : string) : includes (before ++ s) s = true.
Proof.
  pose proof (includes_infix before s "") as H. now rewrite string_app_nil in H.
Qed.

(** A text joined from lines includes each of its lines. *)
Lemma includes_concat (sep line : string) (lines : list string) :
  In line lines -> includes (String.concat sep lines) line = true.
Proof.
  induction lines as [|l lines IH]; [intros []|].
  destruct lines as [|l' lines].
  - intros [->|[]]. apply (includes_suffix "" line).
  - change (String.concat sep (l :: l' :: lines))
      with (l ++ sep ++ String.concat sep (l' :: lines)).
    intros [->|H].
    + apply (includes_infix "" line).
    + apply includes_trans with (middle := String.concat sep (l' :: lines)); [|now apply IH].
      rewrite <- string_app_assoc. apply includes_suffix.
Qed.

(** X3: the graph request carries the objective as typed, between double
    quotes and unescaped; the system instruction of a chat turn carries the
    objective, the name of the learning style and the label of the current
    node the same way. *)
Theorem prompts_embed_inputs (objective : string) (history : list Content)
    (context : ChatContext) :
  includes (gc_contents (graphRequest objective)) (dquote ++ objective ++ dquote) = true
  /\ includes (chat_systemInstruction (chat_config (chatParameters history context)))
       (dquote ++ ctx_objective context ++ dquote) = true
  /\ includes (chat_systemInstruction (chat_config (chatParameters history context)))
       (dquote ++ LearningStyle_value (ctx_style context) ++ dquote) = true
  /\ includes (chat_systemInstruction (chat_config (chatParameters history context)))
       (dquote ++ ctx_currentNode context ++ dquote) = true.
Proof.
  repeat apply conj; cbn [graphRequest gc_contents chatParameters chat_config
                            chat_systemInstruction].
  - apply includes_trans
      with (middle := "    Target Objective: " ++ dquote ++ objective ++ dquote).
    + apply includes_concat. unfold systemPrompt. cbn [In]. auto.
    + apply includes_suffix.
  - apply includes_trans
      with (middle := "      ⫻obj: " ++ dquote ++ ctx_objective context ++ dquote).
    + apply includes_concat. unfold systemInstruction. cbn [In]. auto 10.
    + apply includes_suffix.
  - apply includes_trans
      with (middle := "      ⫻var:learning_style = " ++ dquote
                      ++ LearningStyle_value (ctx_style context) ++ dquote).
    + apply includes_concat. unfold systemInstruction. cbn [In]. auto 10.
    + apply includes_suffix.
  - apply includes_trans
      with (middle := "      ⫻var:current_node = " ++ dquote
                      ++ ctx_currentNode context ++ dquote).
    + apply includes_concat. unfold systemInstruction. cbn [In]. auto 12.
    + apply includes_suffix.
Qed.

(** * Further properties of the session state holder *)

(** ** Starting a session *)


(** X5: when the graph request fails, the session starts all the same, on
    the fallback graph: the current node is [start], and the one message
    of the log says that the session is starting at Start. *)
Theorem handleStartSession_degraded (rt : Runtime) (now : nat -> Z) (obj : string)
    (st : AppState) :
  graphInvocationFails rt obj = true ->
  hasStarted (exec (handleStartSession rt now obj) st) = true
  /\ graphData (exec (handleStartSession rt now obj) st) = fallbackGraph
  /\ currentNodeId (kickLangState (exec (handleStartSession rt now obj) st)) = "start"
  /\ objective (kickLangState (exec (handleStartSession rt now obj) st)) = obj
  /\ exists welcome,
       messages (exec (handleStartSession rt now obj) st) = [welcome]
       /\ includes (msg_text welcome) "We are starting at **Start**" = true.
Proof.
  intros F.
  assert (H : generateLearningGraph rt obj = Returned fallbackGraph).
  { unfold graphInvocationFails in F.
    unfold generateLearningGraph, try_catch, JS.bind.
    destruct (models_generateContent (ai rt) (graphRequest obj)) as [[[t|]]|e];
      cbn [text] in *; try reflexivity.
    apply negb_true_iff in F. now rewrite F. }
  unfold exec. rewrite (handleStartSession_eq rt now obj st _ H).
  repeat apply conj; try reflexivity.
  eexists. split; [reflexivity|]. cbn [msg_text].
  apply (welcomeText_starting_at obj fallbackGraph _ [] eq_refl). discriminate.
Qed.

Lemma handleStartSession_degraded_witness :
  graphData (exec (handleStartSession offlineRuntime frozenClock "Learn recursion")
               initialAppState) = fallbackGraph.
Proof.
  apply (handleStartSession_degraded offlineRuntime frozenClock "Learn recursion"
           initialAppState).
  reflexivity.
Defined.

(** X6: the context of the first chat turn after [handleStartSession]
    carries the objective and the graph; its current node is the label of
    the first node, but [Unknown] when that label is empty or the graph has
    no node (where the welcome message says Start). *)
Theorem chatContext_after_start (rt : Runtime) (now : nat -> Z) (obj : string)
    (st : AppState) :
  exists graph,
    generateLearningGraph rt obj = Returned graph
    /\ ctx_objective (chatContextOf (exec (handleStartSession rt now obj) st)) = obj
    /\ ctx_graph (chatContextOf (exec (handleStartSession rt now obj) st)) = graph
    /\ ctx_style (chatContextOf (exec (handleStartSession rt now obj) st))
       = learningStyle (kickLangState st)
    /\ (nodes graph = [] ->
        ctx_currentNode (chatContextOf (exec (handleStartSession rt now obj) st))
        = "Unknown")
    /\ (forall first rest, nodes graph = first :: rest -> node_label first = "" ->
        ctx_currentNode (chatContextOf (exec (handleStartSession rt now obj) st))
        = "Unknown")
    /\ (forall first rest, nodes graph = first :: rest -> node_label first <> "" ->
        ctx_currentNode (chatContextOf (exec (handleStartSession rt now obj) st))
        = node_label first).
Proof.
  destruct (generateLearningGraph_returns rt obj) as [graph H].
  exists graph. unfold exec. rewrite (handleStartSession_eq rt now obj st graph H).
  cbn [snd]. unfold chatContextOf.
  cbn [kickLangState graphData objective learningStyle currentNodeId
       ctx_objective ctx_graph ctx_style ctx_currentNode].
  repeat apply conj; try reflexivity; try exact H.
  - intros ->. reflexivity.
  - intros first rest -> L. cbn [find]. rewrite String.eqb_refl.
    cbn [option_map or_default]. now rewrite L.
  - intros first rest -> L. cbn [find]. rewrite String.eqb_refl.
    cbn [option_map or_default]. apply String.eqb_neq in L. now rewrite L.
Qed.

Lemma chatContext_after_start_witness :
  ctx_currentNode
    (chatContextOf (exec (handleStartSession scenarioRuntime frozenClock "Learn recursion")
                      initialAppState)) = "Start".
Proof.
  destruct (chatContext_after_start scenarioRuntime frozenClock "Learn recursion"
              initialAppState) as (graph & G & _ & _ & _ & _ & _ & L).
  assert (E : graph = scenarioGraph).
  { change (Returned scenarioGraph = Returned graph) in G. injection G as <-. reflexivity. }
  rewrite (L (hd (mkGraphNode "" "" pending None) (nodes scenarioGraph))
             (tl (nodes scenarioGraph))).
  - reflexivity.
  - rewrite E. reflexivity.
  - discriminate.
Defined.

(** ** One chat exchange *)

(** X7: [handleSendMessage] always completes normally and with the typing
    flag cleared, also when the reply cannot be processed; it leaves the
    session state, the graph, the started flag and the loading flag as
    they were, and the history still mirrors the log when it did before. *)
Theorem handleSendMessage_frame (rt : Runtime) (now : nat -> Z) (text : string)
    (st : AppState) :
  fst (handleSendMessage rt now text st) = Returned tt
  /\ isTyping (exec (handleSendMessage rt now text) st) = false
  /\ kickLangState (exec (handleSendMessage rt now text) st) = kickLangState st
  /\ graphData (exec (handleSendMessage rt now text) st) = graphData st
  /\ hasStarted (exec (handleSendMessage rt now text) st) = hasStarted st
  /\ isLoading (exec (handleSendMessage rt now text) st) = isLoading st
  /\ (chatHistoryRef st = map contentOf (messages st) ->
      chatHistoryRef (exec (handleSendMessage rt now text) st)
      = map contentOf (messages (exec (handleSendMessage rt now text) st))).
Proof.
  unfold handleSendMessage, exec, hbind. rewrite handleSendMessage_submit_eq.
  cbn [fst snd].
  destruct (sendKickLangMessage rt _ text (chatContextOf st)) as [[responseText|]|e];
    cbn; repeat apply conj; try reflexivity; intros ->;
    rewrite ?map_app; cbn [map]; rewrite <- ?app_assoc; reflexivity.
Qed.

Lemma handleSendMessage_frame_witness :
  chatHistoryRef (exec (handleSendMessage scenarioRuntime frozenClock "hi") initialAppState)
  = map contentOf
      (messages (exec (handleSendMessage scenarioRuntime frozenClock "hi") initialAppState)).
Proof.
  apply (handleSendMessage_frame scenarioRuntime frozenClock "hi" initialAppState).
  reflexivity.
Defined.



(** ** Invariants of every run *)

Section RunInvariants.

(** A property of the state that every step keeps holds after every run. *)
Lemma run_invariant (P : AppState -> Prop) :
  (forall s st, P st -> P (step s st)) ->
  forall steps st, P st -> P (run steps st).
Proof.
  intros Hstep steps. unfold run.
  induction steps as [|s steps IH]; intros st H; cbn [fold_left]; auto.
Qed.

Lemma step_history_mirrors_log (s : Step) (st : AppState) :
  chatHistoryRef st = map contentOf (messages st) ->
  chatHistoryRef (step s st) = map contentOf (messages (step s st)).
Proof.
  intros H.
  destruct s as [|now obj [graph|e]|now text|now [[responseText|]|e]|nodeId|];
    cbn; try exact H; try reflexivity;
    rewrite H, map_app; reflexivity.
Qed.

Lemma step_welcome_first (s : Step) (st : AppState) :
  (hasStarted st = true ->
   exists welcome rest, messages st = welcome :: rest /\ msg_id welcome = "init-1"
                        /\ msg_role welcome = model /\ authorName welcome = Some "AI_Tutor") ->
  hasStarted (step s st) = true ->
  exists welcome rest, messages (step s st) = welcome :: rest /\ msg_id welcome = "init-1"
                       /\ msg_role welcome = model /\ authorName welcome = Some "AI_Tutor".
Proof.
  intros H.
  destruct s as [|now obj [graph|e]|now text|now [[responseText|]|e]|nodeId|];
    cbn; try exact H.
  - intros _. do 2 eexists. repeat apply conj; reflexivity.
  - intros S. destruct (H S) as (w & rest & -> & I). exists w. eexists. split; [reflexivity|exact I].
  - intros S. destruct (H S) as (w & rest & -> & I). exists w. eexists. split; [reflexivity|exact I].
Qed.

Lemma step_no_system_message (s : Step) (st : AppState) :
  Forall (fun m => msg_role m <> system) (messages st) ->
  Forall (fun m => msg_role m <> system) (messages (step s st)).
Proof.
  intros H.
  destruct s as [|now obj [graph|e]|now text|now [[responseText|]|e]|nodeId|];
    cbn; try exact H.
  - constructor; [discriminate | constructor].
  - apply Forall_app. split; [exact H|]. constructor; [discriminate | constructor].
  - apply Forall_app. split; [exact H|]. constructor; [discriminate | constructor].
Qed.

End RunInvariants.

(** X9: after every sequence of steps from the initial state, interleaved
    asynchronous handlers included, the history kept for the model is the
    transcript of the message log: one entry per message, in order, with
    its role and its text; and [formattedHistory] sends it unchanged. *)
Theorem history_mirrors_log (steps : list Step) :
  chatHistoryRef (run steps initialAppState)
  = map contentOf (messages (run steps initialAppState))
  /\ formattedHistory (chatHistoryRef (run steps initialAppState))
     = chatHistoryRef (run steps initialAppState).
Proof.
  assert (M : chatHistoryRef (run steps initialAppState)
              = map contentOf (messages (run steps initialAppState))).
  { apply (run_invariant (fun st => chatHistoryRef st = map contentOf (messages st)));
      [apply step_history_mirrors_log | reflexivity]. }
  split; [exact M|].
  apply formattedHistory_fixed. rewrite M. apply Forall_map.
  assert (N : Forall (fun m => msg_role m <> system) (messages (run steps initialAppState))).
  { apply (run_invariant (fun st => Forall (fun m => msg_role m <> system) (messages st)));
      [apply step_no_system_message | constructor]. }
  eapply Forall_impl; [|exact N]. intros m R. cbn [contentOf role].
  destruct (msg_role m) eqn:E; [now right | now left | congruence].
Qed.

(** X10: after every sequence of steps from the initial state, once the
    session has started the log begins with the welcome message [init-1]
    of the tutor, and no message of the log has the role [system]. *)
Theorem log_begins_with_welcome (steps : list Step) :
  (hasStarted (run steps initialAppState) = true ->
   exists welcome rest,
     messages (run steps initialAppState) = welcome :: rest
     /\ msg_id welcome = "init-1"
     /\ msg_role welcome = model
     /\ authorName welcome = Some "AI_Tutor")
  /\ Forall (fun m => msg_role m <> system) (messages (run steps initialAppState)).
Proof.
  split.
  - apply (run_invariant (fun st => hasStarted st = true ->
             exists welcome rest, messages st = welcome :: rest /\ msg_id welcome = "init-1"
               /\ msg_role welcome = model /\ authorName welcome = Some "AI_Tutor")).
    + intros s st H. apply step_welcome_first. exact H.
    + discriminate.
  - apply (run_invariant (fun st => Forall (fun m => msg_role m <> system) (messages st)));
      [apply step_no_system_message | constructor].
Qed.

Lemma log_begins_with_welcome_witness :
  exists welcome rest,
    messages (run [StartSession_begin;
                   StartSession_settled frozenClock "Learn recursion" (Returned scenarioGraph);
                   SendMessage_submitted frozenClock "hi"] initialAppState)
    = welcome :: rest
    /\ msg_id welcome = "init-1"
    /\ msg_role welcome = model
    /\ authorName welcome = Some "AI_Tutor".
Proof.
  apply (proj1 (log_begins_with_welcome _)). reflexivity.
Defined.

(** ** Selecting a node and switching the style *)





(** X12: selecting a node and switching the style do not interfere: they
    commute; of two selections the later one stands; and two switches in a
    row restore a state whose style is not Hybrid. *)
Theorem handlers_compose (st : AppState) (a b : string) :
  exec toggleStyle (exec (handleNodeClick a) st)
  = exec (handleNodeClick a) (exec toggleStyle st)
  /\ exec (handleNodeClick b) (exec (handleNodeClick a) st) = exec (handleNodeClick b) st
  /\ (learningStyle (kickLangState st) <> Hybrid ->
      kickLangState (exec toggleStyle (exec toggleStyle st)) = kickLangState st).
Proof.
  repeat apply conj; try reflexivity.
  intros H. unfold exec, toggleStyle, setKickLangState. cbn.
  destruct (kickLangState st) as [o [| |] c f]; cbn in *; [reflexivity..|now elim H].
Qed.

Lemma handlers_compose_witness :
  kickLangState (exec toggleStyle (exec toggleStyle initialAppState))
  = kickLangState initialAppState.
Proof.
  apply (proj2 (proj2 (handlers_compose initialAppState "start" "start"))).
  discriminate.
Defined.

(** ** The ids of the messages *)

Lemma toString_injective (a b : Z) : toString a = toString b -> a = b.
Proof.
  unfold toString. intros H. apply DecimalZ.to_int_inj.
  assert (S : Some (Z.to_int a) = Some (Z.to_int b)).
  { rewrite <- !NilEmpty.isi. now rewrite H. }
  now injection S.
Qed.

(** X13: under a clock that does not run backwards, the user message and
    the model message of one exchange have different ids, and ids made
    from different clock readings differ. *)
Theorem exchange_ids_differ (now : nat -> Z) (text author responseText : string) :
  (now 0%nat <= now 2%nat)%Z ->
  msg_id (userMsg now text) <> msg_id (botMsg now author responseText)
  /\ (forall later text',
        now 0%nat <> later 0%nat ->
        msg_id (userMsg now text) <> msg_id (userMsg later text')).
Proof.
  intros H. split.
  - intros E. cbn [userMsg botMsg msg_id] in E. apply toString_injective in E. lia.
  - intros later text' D E. cbn [userMsg msg_id] in E. now apply toString_injective in E.
Qed.

Lemma exchange_ids_differ_witness :
  msg_id (userMsg frozenClock "hi") <> msg_id (botMsg frozenClock "AI_Tutor" "hello").
Proof.
  apply (exchange_ids_differ frozenClock "hi" "AI_Tutor" "hello"). cbv. discriminate.
Defined.

(** ** The graph view *)

Lemma drawnNodes_eq (data : LearningGraphData) : drawnNodes data = nodes data.
Proof.
  unfold drawnNodes. destruct (nodes data) as [|d l] eqn:E; [reflexivity|].
  cbn [length Nat.eqb]. rewrite <- (map_id (d :: l)) at 2.
  apply map_ext. now intros [i lb s g].
Qed.




(** ** The loading line of the setup form *)

Lemma loadingStep_after_bound (e : LoadingEvent) (loadingStep : nat) :
  (loadingStep_after e loadingStep < length loadingMessages)%nat.
Proof.
  destruct e; cbn [loadingStep_after].
  - unfold loadingStep_tick. apply Nat.mod_upper_bound. discriminate.
  - cbn. lia.
Qed.

(** X15: whatever the timer and the loading flag do, [loadingStep] stays
    an index of [loadingMessages], so the line shown while loading is
    always one of the four messages; four runs of the timer bring back
    the same message. *)
Theorem loadingStep_in_range (events : list LoadingEvent) :
  (exists message,
     nth_error loadingMessages
       (fold_left (fun s e => loadingStep_after e s) events 0%nat) = Some message)
  /\ (forall s, (s < length loadingMessages)%nat ->
        loadingStep_tick (loadingStep_tick (loadingStep_tick (loadingStep_tick s))) = s).
Proof.
  split.
  - assert (B : (fold_left (fun s e => loadingStep_after e s) events 0%nat
                 < length loadingMessages)%nat).
    { assert (G : forall s, (s < length loadingMessages)%nat ->
                (fold_left (fun s e => loadingStep_after e s) events s
                 < length loadingMessages)%nat).
      { induction events as [|e events IH]; intros s Hs; cbn [fold_left]; [exact Hs|].
        apply IH, loadingStep_after_bound. }
      apply G. cbn. lia. }
    destruct (nth_error loadingMessages _) as [m|] eqn:E; [now exists m|].
    apply nth_error_None in E. lia.
  - intros s Hs. cbn [loadingMessages length] in Hs.
    do 4 (destruct s as [|s]; [reflexivity|]). lia.
Qed.

Lemma loadingStep_in_range_witness :
  loadingStep_tick (loadingStep_tick (loadingStep_tick (loadingStep_tick 2%nat))) = 2%nat.
Proof.
  apply (proj2 (loadingStep_in_range [TimerFires; LoadingEnds]) 2%nat). cbn. lia.
Defined.

(** * Further properties of the forms and of the page *)

(** ** Blank input *)

(** One leading white-space character is dropped whole. *)
Lemma dropLeading_whiteSpace (w rest : string) :
  In w whiteSpace -> dropLeading whiteSpace (w ++ rest) = Some rest.
Proof.
  unfold whiteSpace. cbn [In]. intros H.
  repeat (destruct H as [<-|H]; [destruct rest; reflexivity|]). destruct H.
Qed.

Lemma whiteSpace_length (w : string) : In w whiteSpace -> (1 <= String.length w)%nat.
Proof.
  unfold whiteSpace. cbn [In]. intros H.
  repeat (destruct H as [<-|H]; [cbn; lia|]). destruct H.
Qed.

Lemma string_length_append (a b : string) :
  String.length (a ++ b) = (String.length a + String.length b)%nat.
Proof. induction a as [|c a IH]; cbn; [reflexivity | now rewrite IH]. Qed.

Lemma dropAllLeading_blank (ws : list string) (fuel : nat) :
  Forall (fun w => In w whiteSpace) ws ->
  (length ws <= fuel)%nat ->
  dropAllLeading whiteSpace fuel (fold_right append "" ws) = "".
Proof.
  intros H. revert fuel. induction H as [|w ws Hw _ IH]; intros fuel L.
  - destruct fuel; reflexivity.
  - destruct fuel as [|fuel]; [cbn in L; lia|].
    cbn [fold_right dropAllLeading]. rewrite (dropLeading_whiteSpace w _ Hw).
    apply IH. cbn in L. lia.
Qed.

(** A text made of white space only is emptied by [trim]. *)
Lemma trim_blank (ws : list string) :
  Forall (fun w => In w whiteSpace) ws -> trim (fold_right append "" ws) = "".
Proof.
  intros H. unfold trim, trimStart. rewrite (dropAllLeading_blank ws); [reflexivity|exact H|].
  induction H as [|w ws Hw _ IH]; [cbn; lia|].
  cbn [fold_right length]. rewrite string_length_append.
  pose proof (whiteSpace_length w Hw). lia.
Qed.

Lemma space_whiteSpace : In " " whiteSpace.
Proof. unfold whiteSpace. do 5 right. now left. Qed.

(** What the guard of both forms tests. *)
Lemma truthy_trim (s : string) : truthy (Some (trim s)) = true <-> notBlank s.
Proof.
  unfold truthy, notBlank. rewrite negb_true_iff. split.
  - intros H. now apply String.eqb_neq.
  - intros H. now apply String.eqb_neq.
Qed.

(** X16: the setup form starts nothing for an objective made of white
    space only: the state is left as it is. For any other objective it
    starts the session with the text of the field as typed, untrimmed, as
    the objective of the session. The submit button is disabled while
    loading. *)
Theorem setup_form_guard (rt : Runtime) (now : nat -> Z) (st : AppState) :
  (forall ws, Forall (fun w => In w whiteSpace) ws ->
     SetupModal_handleSubmit (fold_right append "" ws) = None
     /\ exec (invoke (handleStartSession rt now)
                (SetupModal_handleSubmit (fold_right append "" ws))) st = st
     /\ SetupModal_submitDisabled (fold_right append "" ws) false = true)
  /\ (forall typed, notBlank typed ->
        SetupModal_handleSubmit typed = Some typed
        /\ objective (kickLangState
             (exec (invoke (handleStartSession rt now) (SetupModal_handleSubmit typed)) st))
           = typed
        /\ SetupModal_submitDisabled typed false = false)
  /\ (forall typed, SetupModal_submitDisabled typed true = true).
Proof.
  repeat apply conj.
  - intros ws H. unfold SetupModal_handleSubmit, SetupModal_submitDisabled.
    rewrite (trim_blank ws H). repeat apply conj; reflexivity.
  - intros typed H. apply truthy_trim in H.
    unfold SetupModal_handleSubmit, SetupModal_submitDisabled. rewrite H.
    repeat apply conj; try reflexivity. cbn [invoke].
    destruct (generateLearningGraph_returns rt typed) as [graph G].
    unfold exec. now rewrite (handleStartSession_eq rt now typed st graph G).
  - intros typed. unfold SetupModal_submitDisabled. apply orb_true_r.
Qed.

Lemma setup_form_guard_witness :
  SetupModal_handleSubmit "    " = None
  /\ objective (kickLangState
       (exec (invoke (handleStartSession scenarioRuntime frozenClock)
                (SetupModal_handleSubmit "  Learn recursion "))
             initialAppState))
     = "  Learn recursion ".
Proof.
  destruct (setup_form_guard scenarioRuntime frozenClock initialAppState) as (B & N & _).
  split.
  - apply (B [" "; " "; " "; " "]). repeat (apply Forall_cons; [exact space_whiteSpace|]).
    apply Forall_nil.
  - apply (N "  Learn recursion "). unfold notBlank. discriminate.
Defined.

(** X17: the chat form sends nothing, and keeps the text of its field,
    when the text is white space only or a reply is awaited; otherwise it
    sends the text as typed, untrimmed, which becomes the text of the user
    message appended to the log, and it empties the field. *)
Theorem chat_form_guard (rt : Runtime) (now : nat -> Z) (st : AppState) :
  (forall ws isTyping, Forall (fun w => In w whiteSpace) ws ->
     ChatInterface_handleSubmit isTyping (fold_right append "" ws)
     = (None, fold_right append "" ws))
  /\ (forall typed, ChatInterface_handleSubmit true typed = (None, typed))
  /\ (forall typed, notBlank typed ->
        ChatInterface_handleSubmit false typed = (Some typed, "")
        /\ exists added,
             messages (exec (invoke (handleSendMessage rt now)
                               (fst (ChatInterface_handleSubmit false typed))) st)
             = (messages st ++ userMsg now typed :: added)%list
             /\ msg_text (userMsg now typed) = typed).
Proof.
  repeat apply conj.
  - intros ws isTyping H. unfold ChatInterface_handleSubmit. now rewrite (trim_blank ws H).
  - intros typed. unfold ChatInterface_handleSubmit. now rewrite orb_true_r.
  - intros typed H. apply truthy_trim in H. unfold ChatInterface_handleSubmit. rewrite H.
    split; [reflexivity|]. cbn [negb orb fst invoke]. rewrite handleSendMessage_messages.
    destruct (sendKickLangMessage rt _ typed (chatContextOf st)) as [[responseText|]|e];
      eexists; split; reflexivity.
Qed.

Lemma chat_form_guard_witness :
  ChatInterface_handleSubmit false " hi " = (Some " hi ", "").
Proof.
  apply (proj2 (proj2 (chat_form_guard scenarioRuntime frozenClock initialAppState)) " hi ").
  unfold notBlank. discriminate.
Defined.

(** ** Invariants of the page *)

Ltac split_invariant := unfold pageInvariant; split; [|split; [|split]].

Lemma act_invariant (a : Action) (p : Page) : pageInvariant p -> pageInvariant (act a p).
Proof.
  intros I. pose proof I as (L & T & B & K).
  destruct a as [rt now typed|k|rt now typed|k|k|]; cbn [act].
  - (* SubmitObjective *)
    destruct (hasStarted (app p)); [exact I|].
    destruct (SetupModal_handleSubmit typed); exact I.
  - (* GraphSettles *)
    destruct (nth_error (graphRequests p) k) as [[gnow gobj [graph|e]]|];
      [| exact I..].
    split_invariant; [exact L | exact T | |].
    + cbn. constructor; [discriminate | constructor].
    + destruct (nodes graph) as [|first rest] eqn:E.
      * right. cbn. now rewrite E.
      * left. cbn. rewrite E. now left.
  - (* SubmitChat *)
    destruct (hasStarted (app p)); cbn [negb]; [|exact I].
    unfold ChatInterface_handleSubmit.
    destruct (truthy (Some (trim typed))) eqn:N; cbn [negb orb fst]; [|exact I].
    destruct (isTyping (app p)) eqn:Ty; cbn [fst]; [exact I|].
    rewrite handleSendMessage_submit_eq.
    assert (E : chatRequests p = []).
    { destruct (chatRequests p) as [|r l]; [reflexivity|].
      assert (X : false = true) by (apply T; discriminate). discriminate. }
    rewrite E. split_invariant.
    + cbn. lia.
    + cbn. split; [discriminate | reflexivity].
    + cbn. apply Forall_app. split; [exact B|]. constructor; [|constructor].
      intros _. now apply truthy_trim.
    + exact K.
  - (* ReplySettles *)
    destruct (nth_error (chatRequests p) k) as [r|] eqn:E; [|exact I].
    assert (W : without k (chatRequests p) = []).
    { destruct (chatRequests p) as [|r0 [|r1 l]]; cbn in L; try lia.
      - now destruct k.
      - destruct k as [|k]; [reflexivity | now destruct k]. }
    unfold pageInvariant. cbn [chatRequests app]. rewrite W.
    destruct r as [rnow [[responseText|]|e]]; (split; [|split; [|split]]);
      try (cbn; lia); try (cbn; split; [discriminate | now intros []]);
      try exact K; try exact B.
    cbn. apply Forall_app. split; [exact B|]. constructor; [discriminate | constructor].
  - (* ClickCircle *)
    destruct (hasStarted (app p)); cbn [negb]; [|exact I].
    destruct (nth_error (drawnNodes (graphData (app p))) k) as [d|] eqn:E; [|exact I].
    rewrite drawnNodes_eq in E. apply nth_error_In in E.
    split_invariant; [exact L | exact T | exact B |].
    left. cbn. now apply in_map.
  - (* PressStyle *)
    destruct (hasStarted (app p)); cbn [negb]; exact I.
Qed.

Lemma browse_invariant (actions : list Action) (p : Page) :
  pageInvariant p -> pageInvariant (browse actions p).
Proof.
  unfold browse. revert p.
  induction actions as [|a actions IH]; intros p H; cbn [fold_left]; [exact H|].
  apply IH, act_invariant, H.
Qed.

Lemma initialPage_invariant : pageInvariant initialPage.
Proof.
  split_invariant; cbn.
  - lia.
  - split; [discriminate | now intros []].
  - constructor.
  - right. now split.
Qed.

(** X18: whatever the learner and the network do, at most one chat
    request is pending at any time, and the typing flag is raised exactly
    while one is: the chat form lets no second turn through before the
    reply to the first has been handled. *)
Theorem one_chat_request_at_a_time (actions : list Action) :
  (length (chatRequests (browse actions initialPage)) <= 1)%nat
  /\ (isTyping (app (browse actions initialPage)) = true
      <-> chatRequests (browse actions initialPage) <> []).
Proof.
  destruct (browse_invariant actions initialPage initialPage_invariant) as (L & T & _).
  now split.
Qed.

(** X19: whatever the learner and the network do, every user message of
    the log has a text that is not blank. *)
Theorem user_messages_not_blank (actions : list Action) :
  Forall (fun m => msg_role m = user -> notBlank (msg_text m))
    (messages (app (browse actions initialPage))).
Proof.
  apply (browse_invariant actions initialPage initialPage_invariant).
Qed.

